(** * Sweep: webhook dispatcher and usage-quota governor

    A shallow embedding of [sweepai/utils/chat_logger.py] (the [ChatLogger]
    class: ticket counters and the [use_faster_model] decision) and of
    [sweepai/api.py] (the [webhook] endpoint), followed by the properties
    established about them.

    Python objects are modelled by records, dictionaries by [gmap], [None]
    by [option], exceptions by an explicit outcome type, and the calls that
    leave the process (logger, MongoDB, GitHub, Nominatim, Modal, PostHog) by
    state passing, oracles and an effect trace. *)

From Stdlib Require Import ZArith String Ascii List Bool Lia.
From stdpp Require Import base option list gmap strings.

(** ** Python prelude: strings, exceptions, a state-and-exception monad *)

Module Py.

(** A string is the UTF-8 text of a Python [str]: one element per byte.
    On such texts [startswith] and [contains] below are Python's
    [str.startswith] and [in], since no encoded character starts inside
    another one.

    [str.lower] is not defined here: it follows the Unicode character
    database and the context of a letter, and the functions that call it
    take it as the parameter [str_lower]. [ascii_lower] lower-cases the
    letters A to Z and leaves every other byte alone, which is what
    [str.lower] does on ASCII text; it is used for ASCII constants of the
    code and as the [str_lower] of the sample data, which is ASCII. *)
Definition lower_letter (c : ascii) : ascii :=
  let n := nat_of_ascii c in
  if Nat.leb 65 n && Nat.leb n 90 then ascii_of_nat (n + 32) else c.

Fixpoint ascii_lower (s : string) : string :=
  match s with
  | EmptyString => EmptyString
  | String c s' => String (lower_letter c) (ascii_lower s')
  end.

(** [s.startswith(p)]. *)
Fixpoint startswith (p s : string) : bool :=
  match p, s with
  | EmptyString, _ => true
  | String a p', String b s' => if Ascii.eqb a b then startswith p' s' else false
  | String _ _, EmptyString => false
  end.

(** [needle in hay] on strings. *)
Fixpoint contains (needle hay : string) : bool :=
  startswith needle hay ||
  match hay with
  | EmptyString => false
  | String _ hay' => contains needle hay'
  end.

(** [s.split(sep)] for a one-character separator: [acc] is the piece being
    read, in reverse. *)
Fixpoint split_go (sep : ascii) (acc : string) (s : string) : list string :=
  match s with
  | EmptyString => [String.rev acc]
  | String c s' =>
      if Ascii.eqb c sep then String.rev acc :: split_go sep EmptyString s'
      else split_go sep (String c acc) s'
  end.

Definition split (sep : ascii) (s : string) : list string :=
  split_go sep EmptyString s.

(** The exception classes that occur in the two files. *)
Inductive exn : Type :=
  | KeyError (key : string)
  | AttributeError
  | ValueError
  | IndexError
  | TypeError
  | AssertionError
  | JSONDecodeError
  | ValidationError
  | HTTPException (status_code : Z) (detail : string)
  | GeocoderTimedOut
  | GeocoderServiceError
  | SystemExit
  | ExternalError (what : string).

(** [except Exception] catches every class above but [SystemExit], which
    derives from [BaseException] only. *)
Definition is_Exception (e : exn) : bool :=
  match e with
  | SystemExit => false
  | _ => true
  end.

Inductive outcome (A : Type) : Type :=
  | Ok (a : A)
  | Raise (e : exn).
Arguments Ok {A} a.
Arguments Raise {A} e.

(** A computation over a mutable state [S] that returns or raises. *)
Definition M (S A : Type) : Type := S → outcome A * S.

#[global] Instance M_ret {S} : MRet (M S) := λ A a s, (Ok a, s).
#[global] Instance M_bind {S} : MBind (M S) := λ A B f m s,
  match m s with
  | (Ok a, s') => f a s'
  | (Raise e, s') => (Raise e, s')
  end.

Definition raise {S A} (e : exn) : M S A := λ s, (Raise e, s).
Definition lift {S A} (o : outcome A) : M S A := λ s, (o, s).
Definition get {S} : M S S := λ s, (Ok s, s).
Definition modify {S} (f : S → S) : M S unit := λ s, (Ok tt, f s).

(** [try: m  except e: h e]. *)
Definition try_catch {S A} (m : M S A) (h : exn → M S A) : M S A := λ s,
  match m s with
  | (Raise e, s') => h e s'
  | r => r
  end.

(** Log records: level and the pieces of the (formatted) message. *)
Inductive level : Type := INFO | WARNING | ERROR | PRINT.

Inductive frag : Type :=
  | Txt (s : string)
  | Num (n : Z)
  | Exc (e : exn).

Definition LogEntry : Type := level * list frag.

End Py.
Export Py.

(** ** [sweepai/utils/chat_logger.py] *)

Module chat_logger.

(** One document of the [tickets] collection: the counters incremented by
    [$inc], keyed by period, and the two tier flags, which a document created
    by an upsert does not have. *)
Record UserUsageRecord : Type := {
  counters : gmap string Z;
  doc_is_paying_user : option bool;
  doc_is_trial_user : option bool;
}.

Definition empty_record : UserUsageRecord :=
  {| counters := ∅; doc_is_paying_user := None; doc_is_trial_user := None |}.

(** The [ChatLogger] object. [ticket_collection] is [None] until
    [initialize_mongodb] has set it; when set, it stands for the documents of
    the collection, one per username. *)
Record ChatLogger : Type := {
  data : gmap string string;
  ticket_collection : option (gmap string UserUsageRecord);
  current_date : string;
  current_month : string;
}.

(** The state a method runs in: the object and what the logger received. *)
Record State : Type := {
  self : ChatLogger;
  logged : list LogEntry;
}.

Definition logger (l : level) (msg : list frag) : M State unit :=
  modify (λ st, {| self := self st; logged := logged st ++ [(l, msg)] |}).

(** The object once the documents of its collection have become [c]. *)
Definition with_ticket_collection (c : gmap string UserUsageRecord)
    (cl : ChatLogger) : ChatLogger :=
  {| data := data cl;
     ticket_collection := Some c;
     current_date := current_date cl;
     current_month := current_month cl |}.

Definition set_ticket_collection (c : gmap string UserUsageRecord) : M State unit :=
  modify (λ st,
    {| self := with_ticket_collection c (self st); logged := logged st |}).

(** [self.data[k]]. *)
Definition data_item (k : string) : M State string :=
  st ← get;
  match data (self st) !! k with
  | Some v => mret v
  | None => raise (KeyError k)
  end.

(** [datetime.utcnow().strftime("%m/%Y/%d")] and [strftime("%m/%Y")]. *)
Record utc : Type := { year : nat; month : nat; day : nat }.

Definition digit (n : nat) : ascii := ascii_of_nat (48 + n mod 10).

Definition two_digits (n : nat) : string :=
  String (digit (n / 10)) (String (digit n) EmptyString).

Definition four_digits (n : nat) : string :=
  String (digit (n / 1000)) (String (digit (n / 100)) (two_digits n)).

Definition strftime_month (now : utc) : string :=
  two_digits (month now) +:+ "/" +:+ four_digits (year now).

Definition strftime_date (now : utc) : string :=
  two_digits (month now) +:+ "/" +:+ four_digits (year now) +:+ "/" +:+
  two_digits (day now).

(** [ChatLogger(data)]: the two period keys come from the clock, the
    collection handle from [initialize_mongodb] ([mongo] is [None] when there
    is no key or the connection failed). *)
Definition new_ChatLogger (now : utc) (mongo : option (gmap string UserUsageRecord))
    (d : gmap string string) : ChatLogger :=
  {| data := d;
     ticket_collection := mongo;
     current_date := strftime_date now;
     current_month := strftime_month now |}.

(** [f"{self.current_month}_gpt3"]. *)
Definition gpt3_key (cl : ChatLogger) : string := current_month cl +:+ "_gpt3".

(** [{"$inc": upd}] applied to one document. *)
Definition inc (upd : gmap string Z) (r : UserUsageRecord) : UserUsageRecord :=
  {| counters := union_with (λ a b, Some (a + b)%Z) (counters r) upd;
     doc_is_paying_user := doc_is_paying_user r;
     doc_is_trial_user := doc_is_trial_user r |}.

(** [update_one({"username": u}, {"$inc": upd}, upsert=True)]. *)
Definition update_one_inc (u : string) (upd : gmap string Z)
    (c : gmap string UserUsageRecord) : gmap string UserUsageRecord :=
  <[u := inc upd (default empty_record (c !! u))]> c.

(** The [$inc] document of [add_successful_ticket]. *)
Definition ticket_increments (cl : ChatLogger) (gpt3 : bool) : gmap string Z :=
  if gpt3 then {[ gpt3_key cl := 1%Z ]}
  else <[current_date cl := 1%Z]> {[ current_month cl := 1%Z ]}.

Definition add_successful_ticket (gpt3 : bool) : M State unit :=
  st ← get;
  match ticket_collection (self st) with
  | None => logger ERROR [Txt "Ticket Collection Does Not Exist"]
  | Some c =>
      username ← data_item "username";
      username ← (if decide (is_Some (data (self st) !! "assignee"))
                  then data_item "assignee" else mret username);
      set_ticket_collection
        (update_one_inc username (ticket_increments (self st) gpt3) c);;
      logger INFO [Txt "Added Successful Ticket for "; Txt username]
  end.

Definition get_ticket_count (use_date gpt3 : bool) : M State Z :=
  st ← get;
  match ticket_collection (self st) with
  | None => logger ERROR [Txt "Ticket Collection Does Not Exist"];; mret 0%Z
  | Some c =>
      username ← data_item "username";
      let tracking_date :=
        if use_date then current_date (self st) else current_month (self st) in
      let tracking_date := if gpt3 then gpt3_key (self st) else tracking_date in
      let ticket_count :=
        match c !! username with
        | Some r => default 0%Z (counters r !! tracking_date)
        | None => 0%Z
        end in
      logger INFO [Txt "Ticket Count for "; Txt username; Txt " "; Num ticket_count];;
      mret ticket_count
  end.

Definition is_paying_user : M State bool :=
  st ← get;
  match ticket_collection (self st) with
  | None => logger ERROR [Txt "Ticket Collection Does Not Exist"];; mret false
  | Some c =>
      username ← data_item "username";
      mret (match c !! username with
            | Some r => default false (doc_is_paying_user r)
            | None => false
            end)
  end.

Definition is_trial_user : M State bool :=
  st ← get;
  match ticket_collection (self st) with
  | None => logger ERROR [Txt "Ticket Collection Does Not Exist"];; mret false
  | Some c =>
      username ← data_item "username";
      mret (match c !! username with
            | Some r => default false (doc_is_trial_user r)
            | None => false
            end)
  end.

(** What the method needs of PyGithub ([g.get_user(login).location]) and of
    geopy ([Location.raw]). *)
Record NamedUser : Type := { location : option string }.
Record Github : Type := { get_user : string → outcome NamedUser }.
Record Location : Type := { raw : gmap string string }.

Section Governor.

(** [str.lower]. *)
Variable str_lower : string → string.

(** [sweepai.config.server.SUPPORT_COUNTRY]. *)
Variable SUPPORT_COUNTRY : list string.

(** [Nominatim(user_agent="location_checker").geocode(q, exactly_one=True)]:
    a location, [None] when nothing is found, or an exception. *)
Variable geocode : option string → outcome (option Location).

(** The loop of [is_supported_country]: [loc.raw] and
    [.get("display_name").lower()] are evaluated at each iteration. *)
Fixpoint is_supported_country_from (cs : list string) (loc : option Location)
    : outcome bool :=
  match cs with
  | [] => Ok false
  | c :: cs' =>
      match loc with
      | None => Raise AttributeError
      | Some l =>
          match raw l !! "display_name" with
          | None => Raise AttributeError
          | Some display_name =>
              if contains (str_lower c) (str_lower display_name) then Ok true
              else is_supported_country_from cs' loc
          end
      end
  end.

Definition is_supported_country (loc : option Location) : M State bool :=
  lift (is_supported_country_from SUPPORT_COUNTRY loc).

(** The [try] block: [Some b] when it executes [return b], [None] when
    control leaves it at its end. *)
Definition location_try (g : Github) : M State (option bool) :=
  username ← data_item "username";
  user ← lift (get_user g username);
  let loc_user := location user in
  loc ← lift (geocode loc_user);
  supported ← is_supported_country loc;
  if negb supported then
    logger PRINT [Txt "G EXCEPTION"; Txt (default "None" loc_user)];;
    monthly ← get_ticket_count false false;
    if (5 <=? monthly)%Z then mret (Some true)
    else
      daily ← get_ticket_count true false;
      mret (Some (1 <=? daily)%Z)
  else mret None.

(** The [except] clauses, in the order they are tried. *)
Definition location_except (e : exn) : M State (option bool) :=
  match e with
  | GeocoderTimedOut =>
      logger WARNING [Txt "Geolocation service timed out"];;
      logger WARNING [Exc e];;
      mret None
  | GeocoderServiceError =>
      logger WARNING [Txt "Geolocation service error occurred"];;
      logger WARNING [Exc e];;
      mret None
  | SystemExit => raise SystemExit
  | _ =>
      logger WARNING [Txt "An unknown error occurred during geolocation"];;
      logger WARNING [Exc e];;
      mret None
  end.

Definition check_location_and_ticket_count (g : Github) : M State bool :=
  returned ← try_catch (location_try g) location_except;
  match returned with
  | Some b => mret b
  | None =>
      monthly ← get_ticket_count false false;
      if (5 <=? monthly)%Z then mret true
      else
        daily ← get_ticket_count true false;
        mret (3 <? daily)%Z
  end.

Definition use_faster_model (g : Github) : M State bool :=
  st ← get;
  match ticket_collection (self st) with
  | None => logger ERROR [Txt "Ticket Collection Does Not Exist"];; mret true
  | Some _ =>
      paying ← is_paying_user;
      if (paying : bool) then
        n ← get_ticket_count false false; mret (500 <=? n)%Z
      else
        trial ← is_trial_user;
        if (trial : bool) then
          n ← get_ticket_count false false; mret (15 <=? n)%Z
        else check_location_and_ticket_count g
  end.

End Governor.

(** Running a method on an object with an empty log. *)
Definition call {A} (m : M State A) (cl : ChatLogger) : outcome A * State :=
  m {| self := cl; logged := [] |}.

Definition returns {A} (m : M State A) (cl : ChatLogger) : outcome A :=
  fst (call m cl).

Definition after {A} (m : M State A) (cl : ChatLogger) : ChatLogger :=
  self (snd (call m cl)).

(** The state with further log records. *)
Definition add_log (st : State) (es : list LogEntry) : State :=
  {| self := self st; logged := logged st ++ es |}.

(** What the collection holds for a username: its document, or nothing. *)
Definition stored (cl : ChatLogger) (u : string) : UserUsageRecord :=
  match ticket_collection cl with
  | Some c => default empty_record (c !! u)
  | None => empty_record
  end.

(** The counter and the flags the methods read for [u]. *)
Definition count_of (cl : ChatLogger) (u key : string) : Z :=
  default 0%Z (counters (stored cl u) !! key).

Definition paying (cl : ChatLogger) (u : string) : bool :=
  default false (doc_is_paying_user (stored cl u)).

Definition trial (cl : ChatLogger) (u : string) : bool :=
  default false (doc_is_trial_user (stored cl u)).

(** The field [get_ticket_count] projects ([gpt3] overrides [use_date]). *)
Definition tracking_key (cl : ChatLogger) (use_date gpt3 : bool) : string :=
  if gpt3 then gpt3_key cl
  else if use_date then current_date cl else current_month cl.

(** [n] successive calls of a method on the same object. *)
Fixpoint times (n : nat) (m : M State unit) : M State unit :=
  match n with
  | O => mret tt
  | S n' => m;; times n' m
  end.

(** The same object over a collection in which the monthly counter of the
    user is [n], everything else as it was. *)
Definition with_monthly (n : Z) (cl : ChatLogger) : ChatLogger :=
  match ticket_collection cl, data cl !! "username" with
  | Some c, Some u =>
      let r := default empty_record (c !! u) in
      {| data := data cl;
         ticket_collection :=
           Some (<[u := {| counters := <[current_month cl := n]> (counters r);
                           doc_is_paying_user := doc_is_paying_user r;
                           doc_is_trial_user := doc_is_trial_user r |}]> c);
         current_date := current_date cl;
         current_month := current_month cl |}
  | _, _ => cl
  end.

(** How the [try] block of [check_location_and_ticket_count] ends, as far as
    the result depends on it. *)
Inductive geo_class : Type :=
  | Unsupported   (* the block returns: location resolved, no country matches *)
  | FallsThrough  (* control reaches the statement after the [try] *)
  | Exits.        (* [SystemExit] is raised again *)

Definition class_of_exn (e : exn) : geo_class :=
  if is_Exception e then FallsThrough else Exits.

Definition classify (str_lower : string → string)
    (SUPPORT_COUNTRY : list string)
    (geocode : option string → outcome (option Location))
    (g : Github) (u : string) : geo_class :=
  match get_user g u with
  | Raise e => class_of_exn e
  | Ok user =>
      match geocode (location user) with
      | Raise e => class_of_exn e
      | Ok loc =>
          match is_supported_country_from str_lower SUPPORT_COUNTRY loc with
          | Raise e => class_of_exn e
          | Ok true => FallsThrough
          | Ok false => Unsupported
          end
      end
  end.

(** The value of [use_faster_model] for an initialised collection, as a
    function of what the method reads. *)
Definition decision (is_paying is_trial : bool) (monthly daily : Z)
    (geo : geo_class) : outcome bool :=
  if is_paying then Ok (500 <=? monthly)%Z
  else if is_trial then Ok (15 <=? monthly)%Z
  else match geo with
       | Unsupported => Ok ((5 <=? monthly) || (1 <=? daily))%Z
       | FallsThrough => Ok ((5 <=? monthly) || (3 <? daily))%Z
       | Exits => Raise SystemExit
       end.

(** *** Sample objects

    A clock, an allow-list, a platform client and a geocoder on which the
    statements below are exercised. *)

Definition sample_now : utc := {| year := 2026; month := 11; day := 3 |}.

Definition sample_support : list string := ["United States"; "Canada"].

(** alice declares Paris, bob's profile cannot be fetched, carol declares
    nothing, dave declares Toronto, erin a place the geocoder times out on. *)
Definition sample_github : Github :=
  {| get_user := λ login,
       if String.eqb login "alice" then Ok {| location := Some "Paris" |}
       else if String.eqb login "bob" then Raise (ExternalError "github")
       else if String.eqb login "dave" then Ok {| location := Some "Toronto" |}
       else if String.eqb login "erin" then Ok {| location := Some "Atlantis" |}
       else Ok {| location := None |} |}.

Definition sample_geocode (q : option string) : outcome (option Location) :=
  match q with
  | None => Ok None
  | Some place =>
      if String.eqb place "Paris"
      then Ok (Some {| raw := {[ "display_name" := "Paris, Ile-de-France, France" ]} |})
      else if String.eqb place "Toronto"
      then Ok (Some {| raw := {[ "display_name" := "Toronto, Ontario, Canada" ]} |})
      else if String.eqb place "Atlantis" then Raise GeocoderTimedOut
      else Ok None
  end.

(** A document with the given flags and counts for the sample day. *)
Definition sample_record (is_paying is_trial : option bool) (monthly daily : Z)
    : UserUsageRecord :=
  {| counters := <[strftime_date sample_now := daily]>
                   {[ strftime_month sample_now := monthly ]};
     doc_is_paying_user := is_paying;
     doc_is_trial_user := is_trial |}.

(** A logger for [login] over a collection holding that one document. *)
Definition sample_logger (login : string) (r : UserUsageRecord) : ChatLogger :=
  new_ChatLogger sample_now (Some {[ login := r ]}) {[ "username" := login ]}.

Definition sample_alice : ChatLogger :=
  sample_logger "alice" (sample_record None None 0 0).

End chat_logger.

(** ** [sweepai/api.py] *)

Module api.

(** A parsed JSON value; [JNull] is Python's [None]. *)
#[warnings="-register-all"]
Inductive json : Type :=
  | JNull
  | JBool (b : bool)
  | JNum (n : Z)
  | JStr (s : string)
  | JArr (items : list json)
  | JObj (fields : gmap string json).

(** [d.get(k, None)]. *)
Definition dict_get (d : gmap string json) (k : string) : json :=
  default JNull (d !! k).

(** [v[k]]. *)
Definition subscript (v : json) (k : string) : outcome json :=
  match v with
  | JObj d =>
      match d !! k with
      | Some x => Ok x
      | None => Raise (KeyError k)
      end
  | _ => Raise TypeError
  end.

(** [v == True]. *)
Definition equals_True (v : json) : bool :=
  match v with
  | JBool true => true
  | JNum 1 => true
  | _ => false
  end.

(** The literal patterns of the [match]: a string, or [None]. *)
Definition is_str (v : json) (s : string) : bool :=
  match v with
  | JStr s' => String.eqb s' s
  | _ => false
  end.

Definition is_None (v : json) : bool :=
  match v with
  | JNull => true
  | _ => false
  end.

(** The inbound request: header list (names in lower case, as the server
    hands them over) and body, [None] when the body is not JSON. *)
Record Request : Type := {
  headers : list (string * string);
  json_body : option json;
}.

(** [raw_request.headers.get(name)]: names compare without case; the name
    asked for is an ASCII constant. *)
Definition headers_get (name : string) (hs : list (string * string))
    : option string :=
  snd <$> find (λ kv, String.eqb (fst kv) (ascii_lower name)) hs.

(** *** The event models of [sweepai.events]

    Of each model, the fields [webhook] reads; a field the code tests
    against [None] (or defaults with [or]) is optional. *)

Record Label : Type := { label_name : string }.
Record User : Type := { login : string; user_type : string }.
Record Repository : Type := { full_name : string; description : option string }.
Record Installation : Type := { id : Z }.

Record Issue : Type := {
  title : string;
  body : option string;
  number : Z;
  html_url : string;
  user : User;
  labels : list Label;
  pull_request : option json;
}.

Record IssueRequest : Type := {
  issue : option Issue;
  repository : Repository;
  installation : Installation;
}.

Record IssueComment : Type := {
  ic_id : Z;
  ic_body : string;
  ic_user : User;
}.

(** [IssueCommentRequest] extends [IssueRequest] with the comment. *)
Record IssueCommentRequest : Type := {
  base : IssueRequest;
  comment : IssueComment;
}.

Record Head : Type := { ref : string }.
Record PullRequest : Type := { head : Head; pr_number : Z }.

Record ReviewComment : Type := {
  rc_body : string;
  rc_path : string;
  rc_original_line : Z;
  rc_user : User;
}.

Record CommentCreatedRequest : Type := {
  cc_pull_request : PullRequest;
  cc_repository : Repository;
  cc_comment : ReviewComment;
  cc_installation : Installation;
}.

Record CheckRun : Type := { pull_requests : list PullRequest }.

Record CheckRunCompleted : Type := {
  check_run : CheckRun;
  cr_repository : Repository;
  sender : User;
  cr_installation : Installation;
}.

Record ReposAddedRequest : Type := {
  ra_installation : Installation;
  repositories_added : list Repository;
}.

Record InstallationCreatedRequest : Type := {
  created_installation : Installation;
  repositories : list Repository;
}.

Record ClosedPullRequest : Type := { pr_user : User; merged_by : User }.

Record PRRequest : Type := {
  closed_pull_request : ClosedPullRequest;
  pr_repository : Repository;
}.

(** Building each model from the request dictionary ([Model] called with the
    dictionary unpacked): [None] stands for a [ValidationError]. *)
Record Validators : Type := {
  validate_IssueRequest : gmap string json → option IssueRequest;
  validate_IssueCommentRequest : gmap string json → option IssueCommentRequest;
  validate_CommentCreatedRequest : gmap string json → option CommentCreatedRequest;
  validate_CheckRunCompleted : gmap string json → option CheckRunCompleted;
  validate_ReposAddedRequest : gmap string json → option ReposAddedRequest;
  validate_InstallationCreatedRequest :
    gmap string json → option InstallationCreatedRequest;
  validate_PRRequest : gmap string json → option PRRequest;
}.

(** *** Calls that leave the process *)

(** Positional arguments of [handle_ticket.spawn]; the ninth is given on the
    comment path only. *)
Record TicketArgs : Type := {
  t_title : string;
  t_body : option string;
  t_number : Z;
  t_html_url : string;
  t_login : string;
  t_full_name : string;
  t_description : option string;
  t_installation_id : Z;
  t_comment_id : option Z;
}.

(** Keyword arguments of [handle_comment.spawn]. *)
Record CommentArgs : Type := {
  repo_full_name : string;
  repo_description : option string;
  comment_text : string;
  pr_path : option string;
  pr_line_position : option Z;
  username : string;
  installation_id : Z;
  c_pr_number : Z;
}.

Inductive piece : Type :=
  | Lit (s : string)
  | Val (v : json)
  | Names (ks : list string).

Inductive effect : Type :=
  | Log (l : level) (msg : list piece)
  | get_github_client (installation_id : Z)
  | get_repo (full_name : string)
  | get_labels (full_name : string)
  | create_label (full_name name color description : string)
  | get_issue (full_name : string) (number : Z)
  | add_to_labels (full_name : string) (number : Z) (label : string)
  | handle_ticket_spawn (args : TicketArgs)
  | handle_comment_spawn (args : CommentArgs)
  | handle_check_suite_call (request : CheckRunCompleted)
  | posthog_capture (distinct_id event : string) (properties : gmap string json)
  | index_full_repository (full_name : string) (installation_id : Z)
  | update_index_spawn (full_name installation_id : json).

(** What the services answer during one request: whether a call raises,
    the label names of a repository, the logs of a check suite. *)
Record World : Type := {
  fails : effect → option exn;
  label_names_of : string → list string;
  check_suite_logs : CheckRunCompleted → string;
}.

Definition Trace : Type := list effect.

Definition emit (e : effect) : M Trace unit := modify (λ tr, tr ++ [e]).

(** [{"success": True}] and [{"message": "pong"}]. *)
Definition success : json := JObj {[ "success" := JBool true ]}.
Definition pong : json := JObj {[ "message" := JStr "pong" ]}.

(** [x, y = s.split("/")]. *)
Definition unpack2 (parts : list string) : outcome (string * string) :=
  match parts with
  | [x; y] => Ok (x, y)
  | _ => Raise ValueError
  end.

(** [x or ""]. *)
Definition or_empty (x : option string) : option string :=
  match x with
  | None => Some EmptyString
  | Some s => if String.eqb s EmptyString then Some EmptyString else Some s
  end.

(** [request.issue.body = ...] and [request.repository.description = ...]. *)
Definition set_body (b : option string) (i : Issue) : Issue :=
  {| title := title i; body := b; number := number i; html_url := html_url i;
     user := user i; labels := labels i; pull_request := pull_request i |}.

Definition set_description (d : option string) (r : Repository) : Repository :=
  {| full_name := full_name r; description := d |}.

(** [bool(x)] for an optional JSON value. *)
Definition truthy (x : option json) : bool :=
  match x with
  | None | Some JNull | Some (JBool false) | Some (JNum 0) => false
  | Some (JStr s) => negb (String.eqb s EmptyString)
  | Some (JArr l) => match l with [] => false | _ => true end
  | Some (JObj d) => negb (bool_decide (d = ∅))
  | Some _ => true
  end.

(** ["sweep" in [label.name.lower() for label in labels]]. *)
Definition has_sweep_label (str_lower : string → string) (ls : list Label)
    : bool :=
  existsb (λ l, String.eqb (str_lower (label_name l)) "sweep") ls.

Section Webhook.

(** [sweepai.utils.constants]. *)
Variables LABEL_NAME LABEL_COLOR LABEL_DESCRIPTION SWEEP_LOGIN : string.

Variable validators : Validators.
Variable world : World.

(** [str.lower]. *)
Variable str_lower : string → string.

(** A call to a service: it is made, then it returns or raises. *)
Definition ext (e : effect) : M Trace unit :=
  emit e;;
  match fails world e with
  | Some x => raise x
  | None => mret tt
  end.

(** Building a model from the request dictionary. *)
Definition validated {A} (parse : gmap string json → option A)
    (request_dict : gmap string json) : M Trace A :=
  match parse request_dict with
  | Some request => mret request
  | None => raise ValidationError
  end.

(** [request.issue.<field>] when [request.issue] may be [None]. *)
Definition attr_of {A} (x : option A) : M Trace A :=
  match x with
  | Some a => mret a
  | None => raise AttributeError
  end.

(** [case "issues", "opened"]. *)
Definition on_issues_opened (request_dict : gmap string json) : M Trace unit :=
  request ← validated (validate_IssueRequest validators) request_dict;
  i ← attr_of (issue request);
  let issue_title_lower := str_lower (title i) in
  if startswith "sweep" issue_title_lower || contains "sweep:" issue_title_lower
  then
    ext (get_github_client (id (installation request)));;
    let repo := full_name (repository request) in
    ext (get_repo repo);;
    ext (get_labels repo);;
    let label_names := label_names_of world repo in
    (if negb (existsb (String.eqb LABEL_NAME) label_names)
     then ext (create_label repo LABEL_NAME LABEL_COLOR LABEL_DESCRIPTION)
     else mret tt);;
    ext (get_issue repo (number i));;
    ext (add_to_labels repo (number i) LABEL_NAME)
  else mret tt.

(** [case "issues", "labeled"]. *)
Definition on_issues_labeled (request_dict : gmap string json) : M Trace unit :=
  request ← validated (validate_IssueRequest validators) request_dict;
  match issue request with
  | Some i =>
      if has_sweep_label str_lower (labels i) then
        let i := set_body (or_empty (body i)) i in
        let r := set_description (or_empty (description (repository request)))
                   (repository request) in
        ext (handle_ticket_spawn
               {| t_title := title i;
                  t_body := body i;
                  t_number := number i;
                  t_html_url := html_url i;
                  t_login := login (user i);
                  t_full_name := full_name r;
                  t_description := description r;
                  t_installation_id := id (installation request);
                  t_comment_id := None |})
      else mret tt
  | None => mret tt
  end.

(** The [elif] of the comment case; [request.issue] is dereferenced
    unguarded. *)
Definition on_pr_comment (request : IssueCommentRequest) : M Trace unit :=
  i ← attr_of (issue (base request));
  if truthy (pull_request i)
     && String.eqb (login (user i)) SWEEP_LOGIN
     && String.eqb (user_type (ic_user (comment request))) "User"
  then
    emit (Log INFO [Lit "Handling comment on PR: ";
                    Val (default JNull (pull_request i))]);;
    ext (handle_comment_spawn
           {| repo_full_name := full_name (repository (base request));
              repo_description := description (repository (base request));
              comment_text := ic_body (comment request);
              pr_path := None;
              pr_line_position := None;
              username := login (ic_user (comment request));
              installation_id := id (installation (base request));
              c_pr_number := number i |})
  else mret tt.

(** [case "issue_comment", "created"]. *)
Definition on_issue_comment_created (request_dict : gmap string json)
    : M Trace unit :=
  request ← validated (validate_IssueCommentRequest validators) request_dict;
  match issue (base request) with
  | Some i =>
      if has_sweep_label str_lower (labels i)
         && String.eqb (user_type (ic_user (comment request))) "User"
      then
        let i := set_body (or_empty (body i)) i in
        let r := set_description
                   (or_empty (description (repository (base request))))
                   (repository (base request)) in
        ext (handle_ticket_spawn
               {| t_title := title i;
                  t_body := body i;
                  t_number := number i;
                  t_html_url := html_url i;
                  t_login := login (user i);
                  t_full_name := full_name r;
                  t_description := description r;
                  t_installation_id := id (installation (base request));
                  t_comment_id := Some (ic_id (comment request)) |})
      else on_pr_comment request
  | None => on_pr_comment request
  end.

(** [case "pull_request_review_comment", "created"]. *)
Definition on_review_comment_created (request_dict : gmap string json)
    : M Trace unit :=
  request ← validated (validate_CommentCreatedRequest validators) request_dict;
  if contains "sweep/" (str_lower (ref (head (cc_pull_request request))))
  then
    ext (handle_comment_spawn
           {| repo_full_name := full_name (cc_repository request);
              repo_description := description (cc_repository request);
              comment_text := rc_body (cc_comment request);
              pr_path := Some (rc_path (cc_comment request));
              pr_line_position := Some (rc_original_line (cc_comment request));
              username := login (rc_user (cc_comment request));
              installation_id := id (cc_installation request);
              c_pr_number := pr_number (cc_pull_request request) |})
  else mret tt.

(** [case "check_run", "completed"]: the synchronous call, then the
    arguments of the spawn ([pull_requests[0]] may not exist), then the
    spawn. *)
Definition on_check_run_completed (request_dict : gmap string json)
    : M Trace unit :=
  request ← validated (validate_CheckRunCompleted validators) request_dict;
  ext (handle_check_suite_call request);;
  let logs := check_suite_logs world request in
  emit (Log INFO [Lit "Logs: "; Lit logs]);;
  match pull_requests (check_run request) with
  | pr :: _ =>
      ext (handle_comment_spawn
             {| repo_full_name := full_name (cr_repository request);
                repo_description := description (cr_repository request);
                comment_text := logs;
                pr_path := None;
                pr_line_position := None;
                username := login (sender request);
                installation_id := id (cr_installation request);
                c_pr_number := pr_number pr |})
  | [] => raise IndexError
  end.

(** The loop of the [installation_repositories] case. *)
Fixpoint index_added_repositories (installation_id : Z)
    (repos : list Repository) : M Trace unit :=
  match repos with
  | [] => mret tt
  | repo :: repos' =>
      '(organization, repo_name) ← lift (unpack2 (split "/" (full_name repo)));
      ext (posthog_capture organization "installed_repository"
             (<["repo_full_name" := JStr (full_name repo)]>
                (<["organization" := JStr organization]>
                   {[ "repo_name" := JStr repo_name ]})));;
      ext (index_full_repository (full_name repo) installation_id);;
      index_added_repositories installation_id repos'
  end.

(** [case "installation_repositories", "added"]. *)
Definition on_repositories_added (request_dict : gmap string json)
    : M Trace unit :=
  repos_added_request ←
    validated (validate_ReposAddedRequest validators) request_dict;
  let installation_id := id (ra_installation repos_added_request) in
  let metadata : gmap string json :=
    <["repositories" :=
        JArr ((λ repo, JStr (full_name repo)) <$>
              repositories_added repos_added_request)]>
      {[ "installation_id" := JNum installation_id ]} in
  ext (posthog_capture "installation_repositories" "started" metadata);;
  index_added_repositories installation_id
    (repositories_added repos_added_request).

(** The loop of the [installation] case. *)
Fixpoint index_repositories (installation_id : Z) (repos : list Repository)
    : M Trace unit :=
  match repos with
  | [] => mret tt
  | repo :: repos' =>
      ext (index_full_repository (full_name repo) installation_id);;
      index_repositories installation_id repos'
  end.

(** [case "installation", "created"]. *)
Definition on_installation_created (request_dict : gmap string json)
    : M Trace unit :=
  repos_added_request ←
    validated (validate_InstallationCreatedRequest validators) request_dict;
  index_repositories (id (created_installation repos_added_request))
    (repositories repos_added_request).

(** [update_index.spawn(request_dict["repository"]["full_name"],
    installation_id=request_dict["installation"]["id"])]. *)
Definition spawn_update_index (request_dict : gmap string json) : M Trace unit :=
  repository ← lift (subscript (JObj request_dict) "repository");
  name ← lift (subscript repository "full_name");
  installation ← lift (subscript (JObj request_dict) "installation");
  installation_id ← lift (subscript installation "id");
  ext (update_index_spawn name installation_id).

(** [case ("pull_request", "closed")]. *)
Definition on_pull_request_closed (request_dict : gmap string json)
    : M Trace unit :=
  pr_request ← validated (validate_PRRequest validators) request_dict;
  '(organization, repo_name) ←
    lift (unpack2 (split "/" (full_name (pr_repository pr_request))));
  let commit_author := login (pr_user (closed_pull_request pr_request)) in
  let merged_by := login (merged_by (closed_pull_request pr_request)) in
  (if String.eqb SWEEP_LOGIN commit_author
   then ext (posthog_capture merged_by "merged_sweep_pr"
               (<["username" := JStr merged_by]>
                  (<["repo_full_name" :=
                       JStr (full_name (pr_repository pr_request))]>
                     (<["organization" := JStr organization]>
                        {[ "repo_name" := JStr repo_name ]}))))
   else mret tt);;
  spawn_update_index request_dict.

(** [case ("push", None)]: [request_dict["base"]["merged"]] is evaluated
    only when the first test of the [or] fails. *)
Definition on_push (event : string) (request_dict : gmap string json)
    : M Trace unit :=
  proceed ←
    (if negb (String.eqb event "pull_request") then mret true
     else
       b ← lift (subscript (JObj request_dict) "base");
       merged ← lift (subscript b "merged");
       mret (equals_True merged));
  if (proceed : bool) then spawn_update_index request_dict else mret tt.

(** The [match] statement: [Some response] when a case executes [return],
    [None] when control leaves the statement. *)
Definition dispatch (event : string) (request_dict : gmap string json)
    : M Trace (option json) :=
  let action := dict_get request_dict "action" in
  let case (e : string) (a : json → bool) := String.eqb event e && a action in
  if case "issues" (λ a, is_str a "opened") then
    on_issues_opened request_dict;; mret None
  else if case "issues" (λ a, is_str a "labeled") then
    on_issues_labeled request_dict;; mret None
  else if case "issue_comment" (λ a, is_str a "created") then
    on_issue_comment_created request_dict;; mret None
  else if case "pull_request_review_comment" (λ a, is_str a "created") then
    on_review_comment_created request_dict;; mret None
  else if case "pull_request_review" (λ a, is_str a "submitted") then
    mret None
  else if case "check_run" (λ a, is_str a "completed") then
    on_check_run_completed request_dict;; mret None
  else if case "installation_repositories" (λ a, is_str a "added") then
    on_repositories_added request_dict;; mret None
  else if case "installation" (λ a, is_str a "created") then
    on_installation_created request_dict;; mret None
  else if case "pull_request" (λ a, is_str a "closed") then
    on_pull_request_closed request_dict;; mret None
  else if case "push" is_None then
    on_push event request_dict;; mret None
  else if case "ping" is_None then
    mret (Some pong)
  else
    emit (Log INFO [Lit "Unhandled event: "; Lit event; Lit " "; Val action]);;
    mret None.

(** The body of the [try]. *)
Definition webhook_try (raw_request : Request) : M Trace (option json) :=
  request_json ← lift (match json_body raw_request with
                       | Some j => Ok j
                       | None => Raise JSONDecodeError
                       end);
  request_dict ← (match request_json with
                  | JObj d => mret d
                  | _ => raise AttributeError
                  end);
  emit (Log INFO [Lit "Received request: ";
                  Names (map_to_list request_dict).*1]);;
  match headers_get "X-GitHub-Event" (headers raw_request) with
  | None => raise AssertionError
  | Some event => dispatch event request_dict
  end.

(** The [except ValidationError] clause. *)
Definition webhook_except {A} (e : exn) : M Trace A :=
  match e with
  | ValidationError =>
      emit (Log WARNING [Lit "Failed to parse request: "; Lit "ValidationError"]);;
      raise (HTTPException 422 "Failed to parse request")
  | _ => raise e
  end.

Definition webhook (raw_request : Request) : M Trace json :=
  returned ← try_catch (webhook_try raw_request) webhook_except;
  match returned with
  | Some response => mret response
  | None => mret success
  end.

End Webhook.

(** What a request leaves at its boundary, from an empty trace. *)
Definition serve (m : M Trace json) : outcome json * Trace := m [].

(** [m] only appends to the trace, and only effects that satisfy [P]. *)
Definition only {A} (P : effect → Prop) (m : M Trace A) : Prop :=
  ∀ tr, ∃ new, snd (m tr) = tr ++ new ∧ Forall P new.

(** A resolve-ticket invocation whose issue body and repository description
    are strings, not [None]. *)
Definition ticket_normalized (e : effect) : Prop :=
  match e with
  | handle_ticket_spawn a => is_Some (t_body a) ∧ is_Some (t_description a)
  | _ => True
  end.

(** The validated payload a resolve-ticket invocation is built from: its
    issue and repository. *)
Definition upstream_ticket (v : Validators) (d : gmap string json)
    (i : Issue) (r : Repository) : Prop :=
  (∃ rq, validate_IssueRequest v d = Some rq ∧
         issue rq = Some i ∧ repository rq = r) ∨
  (∃ rq, validate_IssueCommentRequest v d = Some rq ∧
         issue (base rq) = Some i ∧ repository (base rq) = r).

(** The repository of the validated payload a handle-comment invocation is
    built from. *)
Definition upstream_comment_repository (v : Validators)
    (d : gmap string json) (r : Repository) : Prop :=
  (∃ rq, validate_IssueCommentRequest v d = Some rq ∧
         repository (base rq) = r) ∨
  (∃ rq, validate_CommentCreatedRequest v d = Some rq ∧ cc_repository rq = r) ∨
  (∃ rq, validate_CheckRunCompleted v d = Some rq ∧ cr_repository rq = r).

(** How the two task kinds receive the optional texts: resolve-ticket with
    [None] replaced by the empty string, handle-comment as they came. *)
Definition forwards (v : Validators) (d : gmap string json) (e : effect)
    : Prop :=
  match e with
  | handle_ticket_spawn a =>
      ∃ i r, upstream_ticket v d i r ∧
             t_body a = Some (default EmptyString (body i)) ∧
             t_description a = Some (default EmptyString (description r))
  | handle_comment_spawn a =>
      ∃ r, upstream_comment_repository v d r ∧
           repo_description a = description r
  | _ => True
  end.

(** The effects that hand work to a downstream task. *)
Definition is_dispatch (e : effect) : bool :=
  match e with
  | handle_ticket_spawn _ | handle_comment_spawn _ | handle_check_suite_call _
  | update_index_spawn _ _ | index_full_repository _ _ => true
  | _ => false
  end.

(** *** Sample requests

    Validators reading the fields of three of the models from the request
    dictionary, with [null] accepted where the model field is optional, and
    services that always answer. *)

Definition field (k : string) (v : json) : option json :=
  match v with
  | JObj d => d !! k
  | _ => None
  end.

Definition as_str (v : json) : option string :=
  match v with JStr s => Some s | _ => None end.

Definition as_int (v : json) : option Z :=
  match v with JNum n => Some n | _ => None end.

(** An optional string: absent and [null] both give [None]. *)
Definition opt_str (v : option json) : option (option string) :=
  match v with
  | None | Some JNull => Some None
  | Some (JStr s) => Some (Some s)
  | Some _ => None
  end.

Definition read_user (v : json) : option User :=
  l ← field "login" v ≫= as_str;
  Some {| login := l;
          user_type := default "User" (field "type" v ≫= as_str) |}.

Definition read_repository (v : json) : option Repository :=
  n ← field "full_name" v ≫= as_str;
  d ← opt_str (field "description" v);
  Some {| full_name := n; description := d |}.

Definition read_installation (v : json) : option Installation :=
  i ← field "id" v ≫= as_int;
  Some {| id := i |}.

Definition read_label (v : json) : option Label :=
  n ← field "name" v ≫= as_str;
  Some {| label_name := n |}.

Definition read_labels (v : json) : option (list Label) :=
  match v with
  | JArr items => mapM read_label items
  | _ => None
  end.

Definition read_issue (v : json) : option Issue :=
  t ← field "title" v ≫= as_str;
  b ← opt_str (field "body" v);
  n ← field "number" v ≫= as_int;
  h ← field "html_url" v ≫= as_str;
  u ← field "user" v ≫= read_user;
  ls ← field "labels" v ≫= read_labels;
  Some {| title := t; body := b; number := n; html_url := h; user := u;
          labels := ls; pull_request := field "pull_request" v |}.

Definition read_IssueRequest (d : gmap string json) : option IssueRequest :=
  r ← d !! "repository" ≫= read_repository;
  i ← d !! "installation" ≫= read_installation;
  iss ← (match d !! "issue" with
         | None | Some JNull => Some None
         | Some v => Some <$> read_issue v
         end);
  Some {| issue := iss; repository := r; installation := i |}.

Definition read_CommentCreatedRequest (d : gmap string json)
    : option CommentCreatedRequest :=
  pr ← d !! "pull_request";
  branch ← (field "head" pr ≫= field "ref") ≫= as_str;
  n ← field "number" pr ≫= as_int;
  r ← d !! "repository" ≫= read_repository;
  c ← d !! "comment";
  cb ← field "body" c ≫= as_str;
  cp ← field "path" c ≫= as_str;
  cl ← field "original_line" c ≫= as_int;
  cu ← field "user" c ≫= read_user;
  i ← d !! "installation" ≫= read_installation;
  Some {| cc_pull_request := {| head := {| ref := branch |}; pr_number := n |};
          cc_repository := r;
          cc_comment := {| rc_body := cb; rc_path := cp;
                           rc_original_line := cl; rc_user := cu |};
          cc_installation := i |}.

Definition read_PRRequest (d : gmap string json) : option PRRequest :=
  pr ← d !! "pull_request";
  u ← field "user" pr ≫= read_user;
  m ← field "merged_by" pr ≫= read_user;
  r ← d !! "repository" ≫= read_repository;
  Some {| closed_pull_request := {| pr_user := u; merged_by := m |};
          pr_repository := r |}.

Definition sample_validators : Validators :=
  {| validate_IssueRequest := read_IssueRequest;
     validate_IssueCommentRequest := λ _, None;
     validate_CommentCreatedRequest := read_CommentCreatedRequest;
     validate_CheckRunCompleted := λ _, None;
     validate_ReposAddedRequest := λ _, None;
     validate_InstallationCreatedRequest := λ _, None;
     validate_PRRequest := read_PRRequest |}.

Definition sample_world : World :=
  {| fails := λ _, None;
     label_names_of := λ _, [];
     check_suite_logs := λ _, EmptyString |}.

Definition sample_repository (d : json) : json :=
  JObj (<["description" := d]> {[ "full_name" := JStr "acme/widgets" ]}).

Definition sample_installation : json := JObj {[ "id" := JNum 17 ]}.

Definition post (event : string) (payload : gmap string json) : Request :=
  {| headers := [("content-type", "application/json");
                 ("x-github-event", event)];
     json_body := Some (JObj payload) |}.

(** A review comment on a branch of the bot, in a repository without a
    description. *)
Definition review_comment_payload : gmap string json :=
  <["action" := JStr "created"]>
    (<["pull_request" :=
         JObj (<["number" := JNum 7]>
                 {[ "head" := JObj {[ "ref" := JStr "sweep/fix-typo" ]} ]})]>
       (<["repository" := sample_repository JNull]>
          (<["comment" :=
               JObj (<["user" := JObj {[ "login" := JStr "octocat" ]}]>
                       (<["original_line" := JNum 42]>
                          (<["path" := JStr "src/a.py"]>
                             {[ "body" := JStr "rename this" ]})))]>
             {[ "installation" := sample_installation ]}))).

Definition sample_review_comment : Request :=
  post "pull_request_review_comment" review_comment_payload.

(** An issue that has just been labelled, with neither a body nor a
    repository description. *)
Definition issue_labeled_payload : gmap string json :=
  <["action" := JStr "labeled"]>
    (<["issue" :=
         JObj (<["labels" := JArr [JObj {[ "name" := JStr "Sweep" ]}]]>
                 (<["user" := JObj {[ "login" := JStr "octocat" ]}]>
                    (<["html_url" := JStr "https://example.org/i/3"]>
                       (<["number" := JNum 3]>
                          (<["body" := JNull]>
                             {[ "title" := JStr "Sweep: fix typo" ]})))))]>
       (<["repository" := sample_repository JNull]>
          {[ "installation" := sample_installation ]})).

Definition sample_issue_labeled : Request := post "issues" issue_labeled_payload.

(** A labelled-issue event without the fields of the model. *)
Definition sample_malformed : Request :=
  post "issues" {[ "action" := JStr "labeled" ]}.

(** A pull request of [author], closed after [merger] merged it. *)
Definition pull_request_closed_payload (author merger : string)
    : gmap string json :=
  <["action" := JStr "closed"]>
    (<["pull_request" :=
         JObj (<["merged_by" := JObj {[ "login" := JStr merger ]}]>
                 {[ "user" := JObj {[ "login" := JStr author ]} ]})]>
       (<["repository" := sample_repository (JStr "Widgets")]>
          {[ "installation" := sample_installation ]})).

Definition sample_pull_request_closed (author merger : string) : Request :=
  post "pull_request" (pull_request_closed_payload author merger).

(** A pull request of [author], closed without having been merged: the
    platform sends [merged_by: null]. *)
Definition pull_request_unmerged_payload (author : string)
    : gmap string json :=
  <["action" := JStr "closed"]>
    (<["pull_request" :=
         JObj (<["merged_by" := JNull]>
                 {[ "user" := JObj {[ "login" := JStr author ]} ]})]>
       (<["repository" := sample_repository (JStr "Widgets")]>
          {[ "installation" := sample_installation ]})).

Definition sample_pull_request_unmerged (author : string) : Request :=
  post "pull_request" (pull_request_unmerged_payload author).

(** A ping, and the same request without the event header. *)
Definition ping_payload : gmap string json :=
  {[ "zen" := JStr "Keep it logically awesome." ]}.

Definition sample_ping : Request := post "ping" ping_payload.

Definition sample_no_event_header : Request :=
  {| headers := [("content-type", "application/json")];
     json_body := Some (JObj ping_payload) |}.

Definition sample_webhook : Request → M Trace json :=
  webhook "sweep" "0E8A16" "Sweep your software chores" "sweep-ai[bot]"
    sample_validators sample_world ascii_lower.

End api.

(** ** Further notions about the governor *)

Module governor.
Import chat_logger.

(** A method that leaves the object, and with it the collection, as it
    found them, whether it returns or raises. *)
Definition read_only {A} (m : M State A) : Prop :=
  ∀ st, self (m st).2 = self st.

(** The same object over a collection in which the daily counter of the
    user is [n], everything else as it was. *)
Definition with_daily (n : Z) (cl : ChatLogger) : ChatLogger :=
  match ticket_collection cl, data cl !! "username" with
  | Some c, Some u =>
      let r := default empty_record (c !! u) in
      {| data := data cl;
         ticket_collection :=
           Some (<[u := {| counters := <[current_date cl := n]> (counters r);
                           doc_is_paying_user := doc_is_paying_user r;
                           doc_is_trial_user := doc_is_trial_user r |}]> c);
         current_date := current_date cl;
         current_month := current_month cl |}
  | _, _ => cl
  end.

(** A trial user and a user recorded under an assignee, for the sample
    day. *)
Definition sample_trial (monthly : Z) : ChatLogger :=
  sample_logger "alice" (sample_record None (Some true) monthly 0).

Definition sample_assigned : ChatLogger :=
  new_ChatLogger sample_now (Some {[ "alice" := sample_record None None 4 0 ]})
    (<["assignee" := "bob"]> {[ "username" := "alice" ]}).

(** A logger whose data has an assignee but no username. *)
Definition sample_nameless : ChatLogger :=
  new_ChatLogger sample_now (Some ∅) {[ "assignee" := "bob" ]}.

(** A user the collection has no document for. *)
Definition sample_newcomer : ChatLogger :=
  new_ChatLogger sample_now (Some ∅) {[ "username" := "frank" ]}.

(** Services that end the process. *)
Definition exiting_geocode (q : option string) : outcome (option Location) :=
  Raise SystemExit.

(** A geocoder whose places carry no display name. *)
Definition nameless_geocode (q : option string) : outcome (option Location) :=
  Ok (Some {| raw := ∅ |}).

End governor.

(** ** [ChatLogger]: the chat history *)

Module chat_history.
Import chat_logger.

(** Values of a document of the [chat_history] collection. *)
Inductive bson : Type :=
  | BNull
  | BStr (s : string)
  | BInt (n : Z)
  | BDate (seconds : Z).

(** The fields of the object that [add_chat] and [set_expiration] use, next
    to those of [ChatLogger] above: the chat collection ([None] until
    [initialize_mongodb] has set it, else its documents in insertion order),
    the expiration (a time in seconds, [None] by default) and the index. *)
Record Session : Type := {
  fields : ChatLogger;
  chat_collection : option (list (gmap string bson));
  expiration : option Z;
  index : Z;
}.

Record SessionState : Type := {
  this : Session;
  session_logged : list LogEntry;
}.

Definition session_logger (l : level) (msg : list frag) : M SessionState unit :=
  modify (λ st, {| this := this st;
                   session_logged := session_logged st ++ [(l, msg)] |}).

Definition update (f : Session → Session) : M SessionState unit :=
  modify (λ st, {| this := f (this st); session_logged := session_logged st |}).

(** [self.expiration = datetime.utcnow() + timedelta(days=1)]. *)
Definition set_expiration (utcnow : Z) : M SessionState unit :=
  update (λ s, {| fields := fields s;
                  chat_collection := chat_collection s;
                  expiration := Some (utcnow + 86400)%Z;
                  index := index s |}).

(** The dictionary display of [add_chat]: later entries win. (The store
    adds an "_id" to a document that has none; it is not modelled.) *)
Definition chat_document (s : Session) (additional_data : gmap string bson)
    : gmap string bson :=
  <["index" := BInt (index s)]>
    (<["expiration" := from_option BDate BNull (expiration s)]>
       (additional_data ∪ (BStr <$> data (fields s)))).

Section Insert.

(** Whether [insert_one] raises for a document. *)
Variable insert_rejects : gmap string bson → option exn.

Definition add_chat (additional_data : gmap string bson) : M SessionState unit :=
  st ← get;
  match chat_collection (this st) with
  | None => session_logger ERROR [Txt "Chat collection is not initialized"]
  | Some docs =>
      let document := chat_document (this st) additional_data in
      update (λ s, {| fields := fields s;
                      chat_collection := chat_collection s;
                      expiration := expiration s;
                      index := (index s + 1)%Z |});;
      match insert_rejects document with
      | Some e => raise e
      | None =>
          update (λ s, {| fields := fields s;
                          chat_collection := Some (docs ++ [document]);
                          expiration := expiration s;
                          index := index s |})
      end
  end.

(** One call of [add_chat] for each entry, in order. *)
Fixpoint add_chats (entries : list (gmap string bson)) : M SessionState unit :=
  match entries with
  | [] => mret tt
  | additional_data :: rest => add_chat additional_data;; add_chats rest
  end.

End Insert.

(** Running a method on an object with an empty log. *)
Definition session_call {A} (m : M SessionState A) (s : Session)
    : outcome A * SessionState :=
  m {| this := s; session_logged := [] |}.

(** *** Sample objects *)

Definition sample_session (collection : option (list (gmap string bson)))
    : Session :=
  {| fields := sample_alice;
     chat_collection := collection;
     expiration := Some 1793750400%Z;
     index := 5 |}.

Definition accepts_all (d : gmap string bson) : option exn := None.

Definition rejects_all (d : gmap string bson) : option exn :=
  Some (ExternalError "pymongo").

End chat_history.

(** ** [discord_log_error] *)

Module alerts.

(** What the function does to the outside: requests and log records. *)
Inductive alert_effect : Type :=
  | Post (url : string) (content_type : string) (body : gmap string string)
  | LogError (msg : list frag).

Section Discord.

(** [sweepai.config.server]. *)
Variables DISCORD_WEBHOOK_URL DISCORD_MEDIUM_PRIORITY_URL
  DISCORD_LOW_PRIORITY_URL : string.

(** Whether an exception is a [requests.exceptions.RequestException]. *)
Variable is_RequestException : exn → bool.

(** [requests.post(url, data=json.dumps(data), headers=headers)]: the
    status code of the response, or an exception. *)
Variable post : string → gmap string string → outcome Z.

Definition log_error (msg : list frag) : M (list alert_effect) unit :=
  modify (λ tr, tr ++ [LogError msg]).

(** The [try] block. *)
Definition discord_try (content : string) (priority : Z)
    : M (list alert_effect) unit :=
  let url := DISCORD_WEBHOOK_URL in
  let url := if (priority =? 1)%Z then DISCORD_MEDIUM_PRIORITY_URL else url in
  let url := if (priority =? 2)%Z then DISCORD_LOW_PRIORITY_URL else url in
  let data : gmap string string := {[ "content" := content ]} in
  modify (λ tr, tr ++ [Post url "application/json" data]);;
  status_code ← lift (post url data);
  if negb (status_code =? 204)%Z
  then log_error [Txt "Failed to log to Discord: "; Num status_code]
  else mret tt.

(** The [except] clauses, in the order they are tried. *)
Definition discord_except (e : exn) : M (list alert_effect) unit :=
  if is_RequestException e then
    log_error [Txt "Failed to send HTTP request to Discord"];;
    log_error [Exc e]
  else
    match e with
    | SystemExit => raise SystemExit
    | _ =>
        if is_Exception e then
          log_error [Txt "An unknown error occurred while logging to Discord"];;
          log_error [Exc e]
        else raise e
    end.

Definition discord_log_error (content : string) (priority : Z)
    : M (list alert_effect) unit :=
  try_catch (discord_try content priority) discord_except.

End Discord.

(** The requests among the effects. *)
Definition is_post (e : alert_effect) : bool :=
  match e with
  | Post _ _ _ => true
  | LogError _ => false
  end.

Definition posts (tr : list alert_effect) : list alert_effect :=
  List.filter is_post tr.

(** *** Sample services *)

Definition sample_discord (post : string → gmap string string → outcome Z)
    : string → Z → M (list alert_effect) unit :=
  discord_log_error "https://discord.example/high"
    "https://discord.example/medium" "https://discord.example/low"
    (λ e, match e with ExternalError _ => true | _ => false end) post.

Definition post_accepted (url : string) (data : gmap string string) : outcome Z :=
  Ok 204%Z.

Definition post_refused (url : string) (data : gmap string string) : outcome Z :=
  Raise (ExternalError "ConnectionError").

Definition post_exits (url : string) (data : gmap string string) : outcome Z :=
  Raise SystemExit.

End alerts.

(** ** Further notions about the webhook *)

Module routing.
Import api.

(** The conditions under which the webhook hands an event to a task: for a
    resolve-ticket invocation, a labelled issue or an issue comment by a
    user, on an issue that carries the marker label; for a handle-comment
    invocation, a user's comment on a pull request of the bot that does not
    qualify as a ticket, a review comment on a branch of the bot, or a
    completed check run. [d] is the request dictionary and [event] the
    event header. *)
Definition gate (SWEEP_LOGIN : string) (v : Validators) (w : World)
    (str_lower : string → string)
    (d : gmap string json) (event : string) (e : effect) : Prop :=
  match e with
  | handle_ticket_spawn a =>
      (event = "issues" ∧ dict_get d "action" = JStr "labeled" ∧
       ∃ rq i, validate_IssueRequest v d = Some rq ∧ issue rq = Some i ∧
               has_sweep_label str_lower (labels i) = true ∧
               t_title a = title i ∧ t_number a = number i ∧
               t_comment_id a = None) ∨
      (event = "issue_comment" ∧ dict_get d "action" = JStr "created" ∧
       ∃ rq i, validate_IssueCommentRequest v d = Some rq ∧
               issue (base rq) = Some i ∧
               has_sweep_label str_lower (labels i) = true ∧
               user_type (ic_user (comment rq)) = "User" ∧
               t_title a = title i ∧ t_number a = number i ∧
               t_comment_id a = Some (ic_id (comment rq)))
  | handle_comment_spawn a =>
      (event = "issue_comment" ∧ dict_get d "action" = JStr "created" ∧
       ∃ rq i, validate_IssueCommentRequest v d = Some rq ∧
               issue (base rq) = Some i ∧
               has_sweep_label str_lower (labels i) = false ∧
               truthy (pull_request i) = true ∧
               login (user i) = SWEEP_LOGIN ∧
               user_type (ic_user (comment rq)) = "User" ∧
               comment_text a = ic_body (comment rq) ∧
               pr_path a = None ∧ pr_line_position a = None ∧
               c_pr_number a = number i) ∨
      (event = "pull_request_review_comment" ∧
       dict_get d "action" = JStr "created" ∧
       ∃ rq, validate_CommentCreatedRequest v d = Some rq ∧
             contains "sweep/"
               (str_lower (ref (head (cc_pull_request rq)))) = true ∧
             comment_text a = rc_body (cc_comment rq) ∧
             pr_path a = Some (rc_path (cc_comment rq)) ∧
             pr_line_position a = Some (rc_original_line (cc_comment rq)) ∧
             c_pr_number a = pr_number (cc_pull_request rq)) ∨
      (event = "check_run" ∧ dict_get d "action" = JStr "completed" ∧
       ∃ rq pr rest, validate_CheckRunCompleted v d = Some rq ∧
                     pull_requests (check_run rq) = pr :: rest ∧
                     comment_text a = check_suite_logs w rq ∧
                     pr_path a = None ∧ pr_line_position a = None ∧
                     c_pr_number a = pr_number pr)
  | _ => True
  end.

(** The model a case of the [match] builds first, rejecting the request
    dictionary. *)
Inductive rejected (v : Validators) (d : gmap string json)
    : string → json → Prop :=
  | rejected_issues_opened :
      validate_IssueRequest v d = None →
      rejected v d "issues" (JStr "opened")
  | rejected_issues_labeled :
      validate_IssueRequest v d = None →
      rejected v d "issues" (JStr "labeled")
  | rejected_issue_comment :
      validate_IssueCommentRequest v d = None →
      rejected v d "issue_comment" (JStr "created")
  | rejected_review_comment :
      validate_CommentCreatedRequest v d = None →
      rejected v d "pull_request_review_comment" (JStr "created")
  | rejected_check_run :
      validate_CheckRunCompleted v d = None →
      rejected v d "check_run" (JStr "completed")
  | rejected_repositories_added :
      validate_ReposAddedRequest v d = None →
      rejected v d "installation_repositories" (JStr "added")
  | rejected_installation_created :
      validate_InstallationCreatedRequest v d = None →
      rejected v d "installation" (JStr "created")
  | rejected_pull_request_closed :
      validate_PRRequest v d = None →
      rejected v d "pull_request" (JStr "closed").

(** The event kinds the [match] has a case for. *)
Definition known_kinds : list string :=
  ["issues"; "issue_comment"; "pull_request_review_comment";
   "pull_request_review"; "check_run"; "installation_repositories";
   "installation"; "pull_request"; "push"; "ping"].

(** The first record of every trace. *)
Definition received (d : gmap string json) : effect :=
  Log INFO [Lit "Received request: "; Names (map_to_list d).*1].

(** What the loop of the [installation_repositories] case does for one
    repository named owner/name. *)
Definition installed_effects (installation_id : Z) (repo : Repository)
    : list effect :=
  match split "/" (full_name repo) with
  | [organization; repo_name] =>
      [posthog_capture organization "installed_repository"
         (<["repo_full_name" := JStr (full_name repo)]>
            (<["organization" := JStr organization]>
               {[ "repo_name" := JStr repo_name ]}));
       index_full_repository (full_name repo) installation_id]
  | _ => []
  end.

(** A repository name with exactly one slash. *)
Definition well_named (repo : Repository) : Prop :=
  ∃ organization repo_name,
    split "/" (full_name repo) = [organization; repo_name].

(** *** Sample requests *)

Definition sample_user (name kind : string) : User :=
  {| login := name; user_type := kind |}.

Definition sample_repo (name : string) : Repository :=
  {| full_name := name; description := None |}.

Definition sample_issue (labelled : bool) (pr : option json) (author : string)
    : Issue :=
  {| title := "Sweep: fix typo";
     body := None;
     number := 3;
     html_url := "https://example.org/i/3";
     user := sample_user author "User";
     labels := if labelled then [{| label_name := "Sweep" |}] else [];
     pull_request := pr |}.

(** Validators that accept every dictionary and build fixed models: an
    issue of [author] that carries the marker label or not and is a pull
    request or not, commented on by an account of kind [kind]. *)
Definition fixed_validators (i : option Issue) (kind : string)
    (repos : list Repository) (prs : list PullRequest) : Validators :=
  {| validate_IssueRequest := λ _,
       Some {| issue := i; repository := sample_repo "acme/widgets";
               installation := {| id := 17 |} |};
     validate_IssueCommentRequest := λ _,
       Some {| base := {| issue := i; repository := sample_repo "acme/widgets";
                          installation := {| id := 17 |} |};
               comment := {| ic_id := 41; ic_body := "try again";
                             ic_user := sample_user "octocat" kind |} |};
     validate_CommentCreatedRequest := λ _,
       Some {| cc_pull_request := {| head := {| ref := "Sweep/fix-typo" |};
                                     pr_number := 7 |};
               cc_repository := sample_repo "acme/widgets";
               cc_comment := {| rc_body := "rename this";
                                rc_path := "src/a.py";
                                rc_original_line := 42;
                                rc_user := sample_user "octocat" kind |};
               cc_installation := {| id := 17 |} |};
     validate_CheckRunCompleted := λ _,
       Some {| check_run := {| pull_requests := prs |};
               cr_repository := sample_repo "acme/widgets";
               sender := sample_user "octocat" kind;
               cr_installation := {| id := 17 |} |};
     validate_ReposAddedRequest := λ _,
       Some {| ra_installation := {| id := 17 |};
               repositories_added := repos |};
     validate_InstallationCreatedRequest := λ _,
       Some {| created_installation := {| id := 17 |};
               repositories := repos |};
     validate_PRRequest := λ _, None |}.

(** Services that answer, for a repository with the given labels and a
    check suite with the given logs. *)
Definition answering (names : list string) (logs : string) : World :=
  {| fails := λ _, None;
     label_names_of := λ _, names;
     check_suite_logs := λ _, logs |}.

Definition fixed_webhook (v : Validators) (w : World)
    : Request → M Trace json :=
  webhook "sweep" "0E8A16" "Sweep your software chores" "sweep-ai[bot]" v w
    ascii_lower.

Definition action_payload (action : string) : gmap string json :=
  {[ "action" := JStr action ]}.

Definition empty_payload : gmap string json := ∅.

(** A push to a repository. *)
Definition push_payload : gmap string json :=
  <["repository" := sample_repository JNull]>
    {[ "installation" := sample_installation ]}.

End routing.

(** * Properties of the quota governor *)

Module Py_facts.

Lemma bind_run {S A B} (m : M S A) (f : A → M S B) s :
  (m ≫= f) s =
  match m s return outcome B * S with
  | (Ok a, s') => f a s'
  | (Raise e, s') => (Raise e, s')
  end.
Proof. reflexivity. Qed.

Lemma try_catch_run {S A} (m : M S A) (h : exn → M S A) s :
  try_catch m h s =
  match m s return outcome A * S with
  | (Raise e, s') => h e s'
  | (Ok a, s') => (Ok a, s')
  end.
Proof. unfold try_catch. by destruct (m s) as [[] ?]. Qed.

End Py_facts.
Export Py_facts.

Module chat_logger_facts.
Import chat_logger.

Lemma add_log_nil st : add_log st [] = st.
Proof. destruct st; unfold add_log; simpl. by rewrite app_nil_r. Qed.

Lemma add_log_app st es1 es2 :
  add_log (add_log st es1) es2 = add_log st (es1 ++ es2).
Proof. unfold add_log; simpl. by rewrite app_assoc. Qed.

Lemma logger_run l msg st : logger l msg st = (Ok tt, add_log st [(l, msg)]).
Proof. reflexivity. Qed.

Lemma data_item_run k v st :
  data (self st) !! k = Some v → data_item k st = (Ok v, st).
Proof.
  intros Hk. unfold data_item. rewrite bind_run. unfold get at 1.
  by rewrite Hk.
Qed.

Lemma data_item_missing k st :
  data (self st) !! k = None → data_item k st = (Raise (KeyError k), st).
Proof.
  intros Hk. unfold data_item. rewrite bind_run. unfold get at 1.
  by rewrite Hk.
Qed.

Lemma get_ticket_count_run st c u (use_date gpt3 : bool) :
  ticket_collection (self st) = Some c →
  data (self st) !! "username" = Some u →
  get_ticket_count use_date gpt3 st =
    (Ok (count_of (self st) u (tracking_key (self st) use_date gpt3)),
     add_log st [(INFO, [Txt "Ticket Count for "; Txt u; Txt " ";
                         Num (count_of (self st) u
                                (tracking_key (self st) use_date gpt3))])]).
Proof.
  intros Hc Hu. unfold get_ticket_count, count_of, stored, tracking_key.
  rewrite bind_run. unfold get at 1. simpl. rewrite Hc.
  rewrite bind_run, (data_item_run _ u) by done.
  destruct gpt3, use_date, (c !! u); reflexivity.
Qed.

Lemma is_paying_user_run st c u :
  ticket_collection (self st) = Some c →
  data (self st) !! "username" = Some u →
  is_paying_user st = (Ok (paying (self st) u), st).
Proof.
  intros Hc Hu. unfold is_paying_user, paying, stored.
  rewrite bind_run. unfold get at 1. simpl. rewrite Hc.
  rewrite bind_run, (data_item_run _ u) by done.
  destruct (c !! u); reflexivity.
Qed.

Lemma is_trial_user_run st c u :
  ticket_collection (self st) = Some c →
  data (self st) !! "username" = Some u →
  is_trial_user st = (Ok (trial (self st) u), st).
Proof.
  intros Hc Hu. unfold is_trial_user, trial, stored.
  rewrite bind_run. unfold get at 1. simpl. rewrite Hc.
  rewrite bind_run, (data_item_run _ u) by done.
  destruct (c !! u); reflexivity.
Qed.

Section Governor_facts.

Variable str_lower : string → string.
Variable SUPPORT_COUNTRY : list string.
Variable geocode : option string → outcome (option Location).
Variable g : Github.

(** The two comparisons joined by [or]: the daily counter is read only when
    the monthly test fails. *)
Lemma strict_thresholds_run st c u :
  ticket_collection (self st) = Some c →
  data (self st) !! "username" = Some u →
  ∃ es,
    (monthly ← get_ticket_count false false;
     if (5 <=? monthly)%Z then mret (Some true)
     else daily ← get_ticket_count true false; mret (Some (1 <=? daily)%Z)) st
    = (Ok (Some ((5 <=? count_of (self st) u (current_month (self st)))
                 || (1 <=? count_of (self st) u (current_date (self st))))%Z),
       add_log st es).
Proof.
  intros Hc Hu.
  rewrite bind_run, (get_ticket_count_run _ c u) by done.
  unfold tracking_key.
  destruct (5 <=? _)%Z; [by eexists|].
  rewrite bind_run, (get_ticket_count_run _ c u) by done.
  unfold tracking_key; simpl. rewrite add_log_app. by eexists.
Qed.

Lemma loose_thresholds_run st c u :
  ticket_collection (self st) = Some c →
  data (self st) !! "username" = Some u →
  ∃ es,
    (monthly ← get_ticket_count false false;
     if (5 <=? monthly)%Z then mret true
     else daily ← get_ticket_count true false; mret (3 <? daily)%Z) st
    = (Ok ((5 <=? count_of (self st) u (current_month (self st)))
           || (3 <? count_of (self st) u (current_date (self st))))%Z,
       add_log st es).
Proof.
  intros Hc Hu.
  rewrite bind_run, (get_ticket_count_run _ c u) by done.
  unfold tracking_key.
  destruct (5 <=? _)%Z; [by eexists|].
  rewrite bind_run, (get_ticket_count_run _ c u) by done.
  unfold tracking_key; simpl. rewrite add_log_app. by eexists.
Qed.

(** An exception raised in the [try] block is logged and swallowed, unless it
    is [SystemExit]. *)
Lemma location_except_run e st :
  ∃ es, location_except e st =
        (match class_of_exn e with
         | Exits => Raise SystemExit
         | _ => Ok None
         end, add_log st es).
Proof.
  destruct e; simpl.
  all: try (eexists; rewrite bind_run, logger_run, bind_run, logger_run,
              add_log_app; reflexivity).
  exists []. by rewrite add_log_nil.
Qed.

(** After the [try] block has been left by an exception. *)
Lemma after_except_run e st c u :
  ticket_collection (self st) = Some c →
  data (self st) !! "username" = Some u →
  ∃ es,
    (returned ← location_except e;
     match returned with
     | Some b => mret b
     | None =>
         monthly ← get_ticket_count false false;
         if (5 <=? monthly)%Z then mret true
         else daily ← get_ticket_count true false; mret (3 <? daily)%Z
     end) st
    = (decision false false (count_of (self st) u (current_month (self st)))
         (count_of (self st) u (current_date (self st))) (class_of_exn e),
       add_log st es).
Proof.
  intros Hc Hu. rewrite bind_run.
  destruct (location_except_run e st) as [es ->].
  unfold class_of_exn. destruct (is_Exception e); simpl; [|by eexists].
  destruct (loose_thresholds_run (add_log st es) c u Hc Hu) as [es' ->].
  rewrite add_log_app. by eexists.
Qed.

Lemma check_location_and_ticket_count_run st c u :
  ticket_collection (self st) = Some c →
  data (self st) !! "username" = Some u →
  ∃ es,
    check_location_and_ticket_count str_lower SUPPORT_COUNTRY geocode g st
    = (decision false false (count_of (self st) u (current_month (self st)))
         (count_of (self st) u (current_date (self st)))
         (classify str_lower SUPPORT_COUNTRY geocode g u),
       add_log st es).
Proof.
  intros Hc Hu.
  pose proof (λ e, after_except_run e st c u Hc Hu) as Hexc.
  unfold check_location_and_ticket_count, classify.
  rewrite bind_run. unfold try_catch, location_try.
  rewrite bind_run, (data_item_run _ u) by done.
  rewrite bind_run. unfold lift at 1.
  destruct (get_user g u) as [user|e]; [|apply Hexc].
  rewrite bind_run. unfold lift at 1.
  destruct (geocode (location user)) as [loc|e]; [|apply Hexc].
  rewrite bind_run. unfold is_supported_country, lift at 1.
  destruct (is_supported_country_from str_lower SUPPORT_COUNTRY loc) as [[]|e];
    [| |apply Hexc]; simpl.
  - destruct (loose_thresholds_run st c u Hc Hu) as [es ->]. by eexists.
  - rewrite bind_run, logger_run.
    destruct (strict_thresholds_run (add_log st
      [(PRINT, [Txt "G EXCEPTION"; Txt (default "None" (location user))])])
      c u Hc Hu) as [es ->].
    rewrite add_log_app. by eexists.
Qed.

(** [use_faster_model] on an initialised collection computes [decision]. *)
Lemma use_faster_model_run st c u :
  ticket_collection (self st) = Some c →
  data (self st) !! "username" = Some u →
  ∃ es,
    use_faster_model str_lower SUPPORT_COUNTRY geocode g st
    = (decision (paying (self st) u) (trial (self st) u)
         (count_of (self st) u (current_month (self st)))
         (count_of (self st) u (current_date (self st)))
         (classify str_lower SUPPORT_COUNTRY geocode g u),
       add_log st es).
Proof.
  intros Hc Hu. unfold use_faster_model, decision.
  rewrite bind_run. unfold get at 1. simpl. rewrite Hc.
  rewrite bind_run, (is_paying_user_run _ c u) by done.
  destruct (paying (self st) u).
  { rewrite bind_run, (get_ticket_count_run _ c u) by done. by eexists. }
  rewrite bind_run, (is_trial_user_run _ c u) by done.
  destruct (trial (self st) u).
  { rewrite bind_run, (get_ticket_count_run _ c u) by done. by eexists. }
  by apply (check_location_and_ticket_count_run st c u).
Qed.

Lemma use_faster_model_returns cl c u :
  ticket_collection cl = Some c →
  data cl !! "username" = Some u →
  returns (use_faster_model str_lower SUPPORT_COUNTRY geocode g) cl
  = decision (paying cl u) (trial cl u)
      (count_of cl u (current_month cl)) (count_of cl u (current_date cl))
      (classify str_lower SUPPORT_COUNTRY geocode g u).
Proof.
  intros Hc Hu. unfold returns, call.
  destruct (use_faster_model_run {| self := cl; logged := [] |} c u Hc Hu)
    as [es ->].
  reflexivity.
Qed.

Lemma supported_none_matches cs loc display_name :
  raw loc !! "display_name" = Some display_name →
  Forall (λ c, contains (str_lower c) (str_lower display_name) = false) cs →
  is_supported_country_from str_lower cs (Some loc) = Ok false.
Proof.
  intros Hdn. induction 1 as [|c cs Hc _ IH]; simpl; [done|].
  by rewrite Hdn, Hc.
Qed.

Lemma supported_some_matches cs loc display_name :
  raw loc !! "display_name" = Some display_name →
  Exists (λ c, contains (str_lower c) (str_lower display_name) = true) cs →
  is_supported_country_from str_lower cs (Some loc) = Ok true.
Proof.
  intros Hdn. induction 1 as [c cs Hc|c cs _ IH]; simpl; rewrite Hdn.
  - by rewrite Hc.
  - by destruct (contains _ _).
Qed.

Lemma supported_no_location cs :
  cs ≠ [] → is_supported_country_from str_lower cs None = Raise AttributeError.
Proof. by destruct cs. Qed.

Lemma or_leb_iff (a b : bool) (P Q : Prop) :
  (a = true ↔ P) → (b = true ↔ Q) → (a || b = true ↔ P ∨ Q).
Proof. rewrite orb_true_iff. tauto. Qed.

Lemma strict_iff (monthly daily : Z) :
  ((5 <=? monthly) || (1 <=? daily))%Z = true ↔ (5 ≤ monthly ∨ 1 ≤ daily)%Z.
Proof. apply or_leb_iff; apply Z.leb_le. Qed.

Lemma loose_iff (monthly daily : Z) :
  ((5 <=? monthly) || (3 <? daily))%Z = true ↔ (5 ≤ monthly ∨ 3 < daily)%Z.
Proof. apply or_leb_iff; [apply Z.leb_le|apply Z.ltb_lt]. Qed.

(** C1, as the code has it. For a free-tier user (neither paying nor trial)
    over an initialised collection, [use_faster_model] never tests whether the
    declared location is set: it hands it to the geocoder, and the answer
    decides. When the geocoder finds a place whose display name matches no
    entry of [SUPPORT_COUNTRY], or when [SUPPORT_COUNTRY] is empty and the
    geocoder answers at all, the result is true iff monthly count >= 5 or
    daily count >= 1. When the platform lookup or the geocoder raises
    (time-out, service error, any other [Exception]), or the geocoder finds
    no place and [SUPPORT_COUNTRY] is not empty, the result is true iff
    monthly count >= 5 or daily count > 3. *)
Theorem free_tier_thresholds cl c u :
  ticket_collection cl = Some c →
  data cl !! "username" = Some u →
  paying cl u = false →
  trial cl u = false →
  let monthly := count_of cl u (current_month cl) in
  let daily := count_of cl u (current_date cl) in
  let result := returns (use_faster_model str_lower SUPPORT_COUNTRY geocode g) cl in
  (∀ user loc display_name,
     get_user g u = Ok user →
     geocode (location user) = Ok (Some loc) →
     raw loc !! "display_name" = Some display_name →
     Forall (λ country, contains (str_lower country) (str_lower display_name) = false)
       SUPPORT_COUNTRY →
     ∃ b, result = Ok b ∧ (b = true ↔ (5 ≤ monthly ∨ 1 ≤ daily)%Z)) ∧
  (∀ e,
     is_Exception e = true →
     get_user g u = Raise e ∨
     (∃ user, get_user g u = Ok user ∧ geocode (location user) = Raise e) →
     ∃ b, result = Ok b ∧ (b = true ↔ (5 ≤ monthly ∨ 3 < daily)%Z)) ∧
  (∀ user,
     get_user g u = Ok user →
     geocode (location user) = Ok None →
     SUPPORT_COUNTRY ≠ [] →
     ∃ b, result = Ok b ∧ (b = true ↔ (5 ≤ monthly ∨ 3 < daily)%Z)) ∧
  (∀ user loc,
     get_user g u = Ok user →
     geocode (location user) = Ok loc →
     SUPPORT_COUNTRY = [] →
     ∃ b, result = Ok b ∧ (b = true ↔ (5 ≤ monthly ∨ 1 ≤ daily)%Z)).
Proof.
  intros Hc Hu Hp Ht monthly daily result.
  assert (result = decision false false monthly daily
                     (classify str_lower SUPPORT_COUNTRY geocode g u)) as ->.
  { subst result. by rewrite (use_faster_model_returns cl c u), Hp, Ht. }
  unfold classify. split; [|split; [|split]].
  - intros user loc dn -> -> Hdn Hno.
    rewrite (supported_none_matches _ _ dn) by done.
    eexists; split; [done|apply strict_iff].
  - intros e He [->|(user & -> & ->)]; unfold class_of_exn; rewrite He;
      (eexists; split; [done|apply loose_iff]).
  - intros user -> -> Hne. rewrite supported_no_location by done.
    eexists; split; [done|apply loose_iff].
  - intros user loc -> -> ->. simpl.
    eexists; split; [done|apply strict_iff].
Qed.

(** C10. For a free-tier user whose location is geocoded to a place whose
    display name matches an entry of [SUPPORT_COUNTRY], the [try] block
    returns nothing and the statement after it decides: the result is true
    iff monthly count >= 5 or daily count > 3. *)
Theorem supported_country_falls_through cl c u user loc display_name :
  ticket_collection cl = Some c →
  data cl !! "username" = Some u →
  paying cl u = false →
  trial cl u = false →
  get_user g u = Ok user →
  geocode (location user) = Ok (Some loc) →
  raw loc !! "display_name" = Some display_name →
  Exists (λ country, contains (str_lower country) (str_lower display_name) = true)
    SUPPORT_COUNTRY →
  ∃ b, returns (use_faster_model str_lower SUPPORT_COUNTRY geocode g) cl = Ok b ∧
       (b = true ↔ (5 ≤ count_of cl u (current_month cl) ∨
                    3 < count_of cl u (current_date cl))%Z).
Proof.
  intros Hc Hu Hp Ht Hg Hgeo Hdn Hyes.
  rewrite (use_faster_model_returns cl c u), Hp, Ht by done.
  unfold classify. rewrite Hg, Hgeo, (supported_some_matches _ _ display_name)
    by done.
  eexists; split; [done|apply loose_iff].
Qed.

(** C7. For a paying user the result is [monthly count >= 500], whatever the
    trial flag, the daily count and the geolocation services are: false at
    499 and true at 500. *)
Theorem paying_user_boundary cl c u :
  ticket_collection cl = Some c →
  data cl !! "username" = Some u →
  paying cl u = true →
  let monthly := count_of cl u (current_month cl) in
  let result := returns (use_faster_model str_lower SUPPORT_COUNTRY geocode g) cl in
  result = Ok (500 <=? monthly)%Z ∧
  (monthly = 499%Z → result = Ok false) ∧
  (monthly = 500%Z → result = Ok true).
Proof.
  intros Hc Hu Hp monthly result.
  assert (result = Ok (500 <=? monthly)%Z) as ->.
  { subst result. by rewrite (use_faster_model_returns cl c u), Hp. }
  split; [done|]. split; intros ->; reflexivity.
Qed.

(** C5. When the ticket collection is not initialised, [use_faster_model]
    returns true for every object (whatever its data, so whatever the user
    and tier) and [add_successful_ticket] changes nothing; each logs the
    error "Ticket Collection Does Not Exist" and nothing else. *)
Theorem store_unavailable cl (gpt3 : bool) :
  ticket_collection cl = None →
  call (use_faster_model str_lower SUPPORT_COUNTRY geocode g) cl
  = (Ok true,
     {| self := cl;
        logged := [(ERROR, [Txt "Ticket Collection Does Not Exist"])] |}) ∧
  call (add_successful_ticket gpt3) cl
  = (Ok tt,
     {| self := cl;
        logged := [(ERROR, [Txt "Ticket Collection Does Not Exist"])] |}).
Proof.
  intros Hc. unfold call, use_faster_model, add_successful_ticket.
  rewrite !bind_run. unfold get at 1 2. simpl. rewrite Hc.
  rewrite bind_run, logger_run. done.
Qed.

Lemma stored_with_monthly cl c u n :
  ticket_collection cl = Some c →
  data cl !! "username" = Some u →
  stored (with_monthly n cl) u
  = {| counters := <[current_month cl := n]> (counters (stored cl u));
       doc_is_paying_user := doc_is_paying_user (stored cl u);
       doc_is_trial_user := doc_is_trial_user (stored cl u) |}.
Proof.
  intros Hc Hu. unfold with_monthly, stored. rewrite Hc, Hu. simpl.
  by rewrite lookup_insert_eq.
Qed.

(** [with_monthly] sets the monthly counter the method reads and nothing
    else it reads. *)
Lemma with_monthly_reads cl c u n :
  ticket_collection cl = Some c →
  data cl !! "username" = Some u →
  count_of (with_monthly n cl) u (current_month cl) = n ∧
  (∀ key, key ≠ current_month cl →
          count_of (with_monthly n cl) u key = count_of cl u key) ∧
  paying (with_monthly n cl) u = paying cl u ∧
  trial (with_monthly n cl) u = trial cl u.
Proof.
  intros Hc Hu. unfold count_of, paying, trial.
  rewrite (stored_with_monthly cl c u) by done. simpl.
  rewrite lookup_insert_eq. repeat split; [|done..].
  intros key Hkey. by rewrite lookup_insert_ne.
Qed.

Lemma decision_mono p t m1 d1 m2 d2 geo :
  (m1 ≤ m2)%Z → (d1 ≤ d2)%Z →
  decision p t m1 d1 geo = Ok true → decision p t m2 d2 geo = Ok true.
Proof.
  intros Hm Hd. unfold decision.
  destruct p; [|destruct t; [|destruct geo]]; intros [= H]; f_equal;
    repeat match goal with
    | H : orb _ _ = true |- _ => apply orb_true_iff in H
    | |- orb _ _ = true => apply orb_true_iff
    | H : (_ <=? _)%Z = true |- _ => apply Z.leb_le in H
    | H : (_ <? _)%Z = true |- _ => apply Z.ltb_lt in H
    end;
    rewrite ?Z.leb_le, ?Z.ltb_lt; lia.
Qed.

(** C6. [use_faster_model] is monotonic in the monthly count: over two
    collections that differ only in the user's monthly counter, [n1 <= n2],
    with the same object, flags, other counters and geolocation services, if
    it returns true at [n1] it returns true at [n2]. *)
Theorem monotonic_in_monthly_count cl (n1 n2 : Z) :
  (n1 ≤ n2)%Z →
  returns (use_faster_model str_lower SUPPORT_COUNTRY geocode g) (with_monthly n1 cl)
    = Ok true →
  returns (use_faster_model str_lower SUPPORT_COUNTRY geocode g) (with_monthly n2 cl)
    = Ok true.
Proof.
  intros Hle.
  destruct (ticket_collection cl) as [c|] eqn:Hc;
    [|by unfold with_monthly; rewrite Hc].
  destruct (data cl !! "username") as [u|] eqn:Hu;
    [|by unfold with_monthly; rewrite Hc, Hu].
  assert (∀ n, ∃ c', ticket_collection (with_monthly n cl) = Some c' ∧
                     data (with_monthly n cl) !! "username" = Some u ∧
                     current_month (with_monthly n cl) = current_month cl ∧
                     current_date (with_monthly n cl) = current_date cl)
    as Hshape.
  { intros n. unfold with_monthly. rewrite Hc, Hu. simpl. by eexists. }
  destruct (Hshape n1) as (c1 & Hc1 & Hu1 & Hm1 & Hd1).
  destruct (Hshape n2) as (c2 & Hc2 & Hu2 & Hm2 & Hd2).
  rewrite (use_faster_model_returns _ c1 u), (use_faster_model_returns _ c2 u)
    by done.
  unfold paying, trial, count_of.
  rewrite !(stored_with_monthly cl c u) by done. simpl.
  rewrite Hm1, Hm2, Hd1, Hd2, !lookup_insert_eq. simpl.
  apply decision_mono; [done|].
  rewrite !lookup_insert. case_decide; simpl; lia.
Qed.

End Governor_facts.

(** ** Recording tickets *)

Lemma add_successful_ticket_run st c u (gpt3 : bool) :
  ticket_collection (self st) = Some c →
  data (self st) !! "username" = Some u →
  let owner := default u (data (self st) !! "assignee") in
  add_successful_ticket gpt3 st
  = (Ok tt,
     add_log
       {| self := with_ticket_collection
                    (update_one_inc owner (ticket_increments (self st) gpt3) c)
                    (self st);
          logged := logged st |}
       [(INFO, [Txt "Added Successful Ticket for "; Txt owner])]).
Proof.
  intros Hc Hu owner. subst owner. unfold add_successful_ticket.
  rewrite bind_run. unfold get at 1. simpl. rewrite Hc.
  rewrite bind_run, (data_item_run _ u) by done.
  rewrite bind_run.
  destruct (data (self st) !! "assignee") as [a|] eqn:Ha.
  - rewrite decide_True by eauto. by rewrite (data_item_run _ a).
  - rewrite decide_False by (by intros [? ?]). reflexivity.
Qed.

Lemma count_of_update cl c owner upd v key :
  ticket_collection cl = Some c →
  count_of (with_ticket_collection (update_one_inc owner upd c) cl) v key
  = (count_of cl v key +
     if decide (v = owner) then default 0 (upd !! key) else 0)%Z.
Proof.
  intros Hc. unfold count_of, stored, update_one_inc. simpl. rewrite Hc.
  case_decide as Hv.
  - subst v. rewrite lookup_insert_eq. simpl.
    rewrite lookup_union_with.
    destruct (counters (default empty_record (c !! owner)) !! key),
      (upd !! key); simpl; lia.
  - rewrite lookup_insert_ne by done. lia.
Qed.

Lemma times_add_successful_ticket_run (n : nat) (gpt3 : bool) :
  ∀ st c u,
  ticket_collection (self st) = Some c →
  data (self st) !! "username" = Some u →
  let owner := default u (data (self st) !! "assignee") in
  ∃ c' es,
    times n (add_successful_ticket gpt3) st
    = (Ok tt,
       add_log {| self := with_ticket_collection c' (self st);
                  logged := logged st |} es) ∧
    ∀ v key,
      count_of (with_ticket_collection c' (self st)) v key
      = (count_of (self st) v key +
         Z.of_nat n *
         if decide (v = owner)
         then default 0 (ticket_increments (self st) gpt3 !! key) else 0)%Z.
Proof.
  induction n as [|n IH]; intros st c u Hc Hu owner.
  - exists c, []. split.
    + simpl. rewrite add_log_nil. destruct st as [[] ?]. simpl in *.
      by subst.
    + intros v key. replace (with_ticket_collection c (self st)) with (self st).
      * lia.
      * destruct st as [[] ?]. simpl in *. by subst.
  - simpl. rewrite bind_run, (add_successful_ticket_run _ c u) by done.
    fold owner.
    set (c1 := update_one_inc owner _ c).
    set (st1 := add_log _ _).
    destruct (IH st1 c1 u eq_refl Hu) as (c' & es & Hrun & Hcount).
    exists c', ([(INFO, [Txt "Added Successful Ticket for "; Txt owner])] ++ es).
    split.
    + rewrite Hrun. subst st1. unfold add_log. simpl.
      by rewrite <- app_assoc.
    + intros v key. specialize (Hcount v key).
      subst st1. simpl in Hcount.
      unfold with_ticket_collection in Hcount at 1. simpl in Hcount.
      unfold with_ticket_collection at 1.
      rewrite Hcount. subst c1.
      rewrite (count_of_update _ c) by done.
      fold owner. unfold ticket_increments, gpt3_key. simpl.
      case_decide; lia.
Qed.

Lemma period_keys_distinct now :
  strftime_month now ≠ strftime_date now ∧
  strftime_month now +:+ "_gpt3" ≠ strftime_month now ∧
  strftime_month now +:+ "_gpt3" ≠ strftime_date now.
Proof.
  unfold strftime_month, strftime_date, four_digits, two_digits.
  repeat split; intros H; apply (f_equal String.length) in H;
    cbn in H; discriminate.
Qed.

(** C2, as the code has it. On a logger built at [now] over an initialised
    collection, the document updated is the assignee's when the data has an
    assignee and the user's otherwise. [N] calls without the cheap-tier flag
    succeed and add exactly [N] to its monthly and to its daily counter,
    leaving the month+cheap-tier counter alone; a call with the flag adds 1 to
    the month+cheap-tier counter and leaves the monthly and daily counters
    alone. *)
Theorem record_ticket_counts now c d u (N : nat) :
  d !! "username" = Some u →
  let cl := new_ChatLogger now (Some c) d in
  let owner := default u (d !! "assignee") in
  let monthly x := count_of x owner (current_month cl) in
  let daily x := count_of x owner (current_date cl) in
  let cheap x := count_of x owner (gpt3_key cl) in
  (let cl' := after (times N (add_successful_ticket false)) cl in
   returns (times N (add_successful_ticket false)) cl = Ok tt ∧
   monthly cl' = (monthly cl + Z.of_nat N)%Z ∧
   daily cl' = (daily cl + Z.of_nat N)%Z ∧
   cheap cl' = cheap cl) ∧
  (let cl' := after (add_successful_ticket true) cl in
   returns (add_successful_ticket true) cl = Ok tt ∧
   cheap cl' = (cheap cl + 1)%Z ∧
   monthly cl' = monthly cl ∧
   daily cl' = daily cl).
Proof.
  intros Hu cl owner monthly daily cheap.
  destruct (period_keys_distinct now) as (Hmd & Hgm & Hgd).
  split.
  - intros cl'.
    destruct (times_add_successful_ticket_run N false
                {| self := cl; logged := [] |} c u eq_refl Hu)
      as (c' & es & Hrun & Hcount).
    subst cl'. unfold returns, after, call. rewrite Hrun. simpl in *.
    split; [done|].
    unfold monthly, daily, cheap. rewrite !Hcount.
    fold owner. rewrite decide_True by done.
    unfold ticket_increments, gpt3_key. simpl.
    rewrite lookup_insert_eq.
    rewrite (lookup_insert_ne _ (strftime_date now) (strftime_month now))
      by done.
    rewrite lookup_singleton_eq.
    rewrite (lookup_insert_ne _ (strftime_date now)) by done.
    rewrite lookup_singleton_ne by done.
    simpl. repeat case_decide; try congruence; lia.
  - intros cl'.
    subst cl'. unfold returns, after, call.
    rewrite (add_successful_ticket_run _ c u) by done. simpl.
    split; [done|].
    unfold monthly, daily, cheap.
    rewrite !(count_of_update _ c) by done. fold owner.
    rewrite !decide_True by done.
    unfold ticket_increments, gpt3_key. simpl.
    rewrite lookup_singleton_eq.
    rewrite !lookup_singleton_ne by done.
    simpl. repeat case_decide; try congruence; lia.
Qed.

(** ** The statements on sample users *)

Lemma returns_true_of_iff (r : outcome bool) (P : Prop) :
  (∃ b, r = Ok b ∧ (b = true ↔ P)) → P → r = Ok true.
Proof. intros (b & -> & Hb) HP. f_equal. by apply Hb. Defined.

Lemma returns_false_of_iff (r : outcome bool) (P : Prop) :
  (∃ b, r = Ok b ∧ (b = true ↔ P)) → ¬ P → r = Ok false.
Proof.
  intros (b & -> & Hb) HP. f_equal. destruct b; [|done].
  destruct HP. by apply Hb.
Defined.

Lemma free_tier_thresholds_witness :
  returns (use_faster_model ascii_lower sample_support sample_geocode sample_github)
    (sample_logger "alice" (sample_record None None 0 1)) = Ok true ∧
  returns (use_faster_model ascii_lower sample_support sample_geocode sample_github)
    (sample_logger "alice" (sample_record None None 4 0)) = Ok false ∧
  returns (use_faster_model ascii_lower sample_support sample_geocode sample_github)
    (sample_logger "erin" (sample_record None None 0 3)) = Ok false ∧
  returns (use_faster_model ascii_lower sample_support sample_geocode sample_github)
    (sample_logger "bob" (sample_record None None 5 0)) = Ok true ∧
  returns (use_faster_model ascii_lower sample_support sample_geocode sample_github)
    (sample_logger "carol" (sample_record None None 0 4)) = Ok true.
Proof.
  split; [|split; [|split; [|split]]].
  - eapply returns_true_of_iff.
    + eapply (proj1 (free_tier_thresholds ascii_lower sample_support sample_geocode
                       sample_github
                       (sample_logger "alice" (sample_record None None 0 1)) _ "alice" eq_refl eq_refl eq_refl
                       eq_refl)); [reflexivity..|].
      repeat constructor.
    + vm_compute. right. discriminate.
  - eapply returns_false_of_iff.
    + eapply (proj1 (free_tier_thresholds ascii_lower sample_support sample_geocode
                       sample_github
                       (sample_logger "alice" (sample_record None None 4 0)) _ "alice" eq_refl eq_refl eq_refl
                       eq_refl)); [reflexivity..|].
      repeat constructor.
    + vm_compute. intros [H|H]; by apply H.
  - eapply returns_false_of_iff.
    + eapply (proj1 (proj2 (free_tier_thresholds ascii_lower sample_support sample_geocode
                       sample_github
                       (sample_logger "erin" (sample_record None None 0 3)) _ "erin" eq_refl eq_refl eq_refl
                       eq_refl)) GeocoderTimedOut eq_refl).
      right. eexists. split; reflexivity.
    + vm_compute. intros [H|H]; [by apply H|discriminate H].
  - eapply returns_true_of_iff.
    + eapply (proj1 (proj2 (free_tier_thresholds ascii_lower sample_support sample_geocode
                       sample_github
                       (sample_logger "bob" (sample_record None None 5 0)) _ "bob" eq_refl eq_refl eq_refl
                       eq_refl)) (ExternalError "github") eq_refl).
      left. reflexivity.
    + vm_compute. left. discriminate.
  - eapply returns_true_of_iff.
    + eapply (proj1 (proj2 (proj2 (free_tier_thresholds ascii_lower
                       sample_support sample_geocode sample_github
                       (sample_logger "carol" (sample_record None None 0 4))
                       _ "carol" eq_refl eq_refl eq_refl eq_refl))));
        [reflexivity..|discriminate].
    + vm_compute. right. reflexivity.
Defined.

(** C1 as stated fails for a user whose location is not set: with an empty
    allow-list and a geocoder that finds nothing for it, a free-tier user
    with monthly count 0 and daily count 1 gets true, where monthly count
    >= 5 or daily count > 3 does not hold. *)
Lemma free_tier_unset_location_counterexample :
  let cl := sample_logger "carol" (sample_record None None 0 1) in
  get_user sample_github "carol" = Ok {| location := None |} ∧
  sample_geocode None = Ok None ∧
  paying cl "carol" = false ∧
  trial cl "carol" = false ∧
  count_of cl "carol" (current_month cl) = 0%Z ∧
  count_of cl "carol" (current_date cl) = 1%Z ∧
  returns (use_faster_model ascii_lower [] sample_geocode sample_github) cl
  = Ok true ∧
  ¬ (5 ≤ 0 ∨ 3 < 1)%Z.
Proof. repeat (split; [reflexivity|]). lia. Qed.

Lemma supported_country_falls_through_witness :
  returns (use_faster_model ascii_lower sample_support sample_geocode sample_github)
    (sample_logger "dave" (sample_record None None 0 1)) = Ok false ∧
  returns (use_faster_model ascii_lower sample_support sample_geocode sample_github)
    (sample_logger "dave" (sample_record None None 0 4)) = Ok true.
Proof.
  split.
  - eapply returns_false_of_iff.
    + eapply (supported_country_falls_through ascii_lower sample_support sample_geocode
                sample_github
                       (sample_logger "dave" (sample_record None None 0 1)) _ "dave"); [reflexivity..|].
      right. left. reflexivity.
    + vm_compute. intros [H|H]; [by apply H|discriminate H].
  - eapply returns_true_of_iff.
    + eapply (supported_country_falls_through ascii_lower sample_support sample_geocode
                sample_github
                       (sample_logger "dave" (sample_record None None 0 4)) _ "dave"); [reflexivity..|].
      right. left. reflexivity.
    + vm_compute. right. reflexivity.
Defined.

Lemma paying_user_boundary_witness :
  returns (use_faster_model ascii_lower sample_support sample_geocode sample_github)
    (sample_logger "alice" (sample_record (Some true) (Some true) 499 9))
    = Ok false ∧
  returns (use_faster_model ascii_lower sample_support sample_geocode sample_github)
    (sample_logger "alice" (sample_record (Some true) None 500 0))
    = Ok true.
Proof.
  split.
  - apply (paying_user_boundary ascii_lower sample_support sample_geocode sample_github
             (sample_logger "alice"
                (sample_record (Some true) (Some true) 499 9))
             _ "alice" eq_refl eq_refl eq_refl). reflexivity.
  - apply (paying_user_boundary ascii_lower sample_support sample_geocode sample_github
             (sample_logger "alice" (sample_record (Some true) None 500 0))
             _ "alice" eq_refl eq_refl eq_refl). reflexivity.
Defined.

Lemma store_unavailable_witness :
  returns (use_faster_model ascii_lower sample_support sample_geocode sample_github)
    (new_ChatLogger sample_now None {[ "username" := "alice" ]}) = Ok true ∧
  after (add_successful_ticket false)
    (new_ChatLogger sample_now None {[ "username" := "alice" ]})
  = new_ChatLogger sample_now None {[ "username" := "alice" ]}.
Proof.
  pose proof (store_unavailable ascii_lower sample_support sample_geocode sample_github
                (new_ChatLogger sample_now None {[ "username" := "alice" ]})
                false eq_refl) as [H1 H2].
  unfold returns, after. rewrite H1, H2. split; reflexivity.
Defined.

Lemma monotonic_in_monthly_count_witness :
  returns (use_faster_model ascii_lower sample_support sample_geocode sample_github)
    (with_monthly 7 sample_alice) = Ok true.
Proof.
  apply (monotonic_in_monthly_count ascii_lower sample_support sample_geocode
           sample_github sample_alice 5 7); [lia|reflexivity].
Defined.

(** C2 as stated fails on a call with the cheap-tier flag: it adds nothing
    to the monthly and daily counters. *)
Lemma record_ticket_cheap_tier_counterexample :
  ¬ (count_of (after (add_successful_ticket true) sample_alice) "alice"
       (current_month sample_alice)
     = (count_of sample_alice "alice" (current_month sample_alice) + 1)%Z ∧
     count_of (after (add_successful_ticket true) sample_alice) "alice"
       (current_date sample_alice)
     = (count_of sample_alice "alice" (current_date sample_alice) + 1)%Z ∧
     count_of (after (add_successful_ticket true) sample_alice) "alice"
       (gpt3_key sample_alice)
     = (count_of sample_alice "alice" (gpt3_key sample_alice) + 1)%Z).
Proof. vm_compute. intros [H _]. discriminate H. Qed.

Lemma record_ticket_counts_witness :
  count_of (after (times 3 (add_successful_ticket false)) sample_alice)
    "alice" (current_month sample_alice) = 3%Z ∧
  count_of (after (times 3 (add_successful_ticket false)) sample_alice)
    "alice" (current_date sample_alice) = 3%Z.
Proof.
  pose proof (record_ticket_counts sample_now
                {[ "alice" := sample_record None None 0 0 ]}
                {[ "username" := "alice" ]} "alice" 3 eq_refl) as H.
  destruct H as [(_ & Hm & Hd & _) _].
  split; [exact Hm|exact Hd].
Defined.

End chat_logger_facts.

(** * Properties of the webhook *)

Module api_facts.
Import api.

(** ** Effects of a computation *)

Section Only.

Context {A B : Type} (P : effect → Prop).

Lemma only_ret (a : A) : only P (mret a).
Proof. intros tr. exists []. by rewrite app_nil_r. Qed.

Lemma only_raise (e : exn) : only P (raise e : M Trace A).
Proof. intros tr. exists []. by rewrite app_nil_r. Qed.

Lemma only_lift (o : outcome A) : only P (lift o).
Proof. intros tr. exists []. by rewrite app_nil_r. Qed.

Lemma only_emit (e : effect) : P e → only P (emit e).
Proof. intros He tr. exists [e]. split; [done|]. by constructor. Qed.

Lemma only_bind (m : M Trace A) (f : A → M Trace B) :
  only P m → (∀ a, only P (f a)) → only P (m ≫= f).
Proof.
  intros Hm Hf tr. rewrite bind_run.
  destruct (Hm tr) as (new & Htr & Hnew).
  destruct (m tr) as [[a|e] tr1]; simpl in Htr; subst tr1.
  - destruct (Hf a (tr ++ new)) as (new' & -> & Hnew').
    exists (new ++ new'). split; [by rewrite app_assoc|by apply Forall_app].
  - by exists new.
Qed.

Lemma only_try_catch (m : M Trace A) (h : exn → M Trace A) :
  only P m → (∀ e, only P (h e)) → only P (try_catch m h).
Proof.
  intros Hm Hh tr. rewrite try_catch_run.
  destruct (Hm tr) as (new & Htr & Hnew).
  destruct (m tr) as [[a|e] tr1]; simpl in Htr; subst tr1.
  - by exists new.
  - destruct (Hh e (tr ++ new)) as (new' & -> & Hnew').
    exists (new ++ new'). split; [by rewrite app_assoc|by apply Forall_app].
Qed.

End Only.

Lemma only_ext (P : effect → Prop) (w : World) (e : effect) :
  P e → only P (ext w e).
Proof.
  intros He. apply only_bind; [by apply only_emit|].
  intros _. destruct (fails w e); [apply only_raise|apply only_ret].
Qed.

Lemma only_validated {A B} (P : effect → Prop)
    (parse : gmap string json → option A) d (f : A → M Trace B) :
  (∀ rq, parse d = Some rq → only P (f rq)) →
  only P (validated parse d ≫= f).
Proof.
  intros Hf. unfold validated. destruct (parse d) as [rq|].
  - intros tr. rewrite bind_run. by apply Hf.
  - intros tr. rewrite bind_run. apply (only_raise P).
Qed.

Lemma only_attr_of {A B} (P : effect → Prop) (x : option A)
    (f : A → M Trace B) :
  (∀ a, x = Some a → only P (f a)) → only P (attr_of x ≫= f).
Proof.
  intros Hf. destruct x as [a|]; simpl.
  - intros tr. rewrite bind_run. by apply Hf.
  - intros tr. rewrite bind_run. apply (only_raise P).
Qed.

Lemma only_pure_bind {A B} (P : effect → Prop) (a : A) (f : A → M Trace B) :
  only P (f a) → only P (lift (Ok a) ≫= f).
Proof. intros Hf tr. rewrite bind_run. apply Hf. Qed.

Lemma or_empty_default (x : option string) :
  or_empty x = Some (default EmptyString x).
Proof.
  destruct x as [s|]; simpl; [|done].
  destruct (String.eqb_spec s EmptyString); by subst.
Qed.

(** One step through a handler: a sequencing, a test, or a call. *)
Ltac only_step :=
  lazymatch goal with
  | |- only _ (validated _ _ ≫= _) => apply only_validated; intros ? ?
  | |- only _ (attr_of _ ≫= _) => apply only_attr_of; intros ? ?
  | |- only _ (lift ?o ≫= _) =>
      apply only_bind; [apply only_lift|intros ?]
  | |- only _ (_ ≫= _) => apply only_bind; [|intros ?]
  | |- only _ (mret _) => apply only_ret
  | |- only _ (raise _) => apply only_raise
  | |- only _ (lift _) => apply only_lift
  | |- only _ (emit _) => apply only_emit
  | |- only _ (ext _ _) => apply only_ext
  | |- only _ (if ?b then _ else _) => destruct b eqn:?
  | |- only _ (match ?x with _ => _ end) => destruct x eqn:?
  | |- only _ (let '(_, _) := ?x in _) => destruct x
  end.

Section Webhook_facts.

Variables LABEL_NAME LABEL_COLOR LABEL_DESCRIPTION SWEEP_LOGIN : string.
Variable validators : Validators.
Variable world : World.
Variable str_lower : string → string.
Variable d : gmap string json.

Lemma forwards_on_issues_opened :
  only (forwards validators d)
    (on_issues_opened LABEL_NAME LABEL_COLOR LABEL_DESCRIPTION validators
       world str_lower d).
Proof. unfold on_issues_opened. repeat only_step; exact I. Qed.

Lemma forwards_on_issues_labeled :
  only (forwards validators d) (on_issues_labeled validators world str_lower d).
Proof.
  unfold on_issues_labeled. repeat only_step.
  simpl. eexists _, _. split; [left; eauto|].
  by rewrite !or_empty_default.
Qed.

Lemma forwards_on_pr_comment rq :
  validate_IssueCommentRequest validators d = Some rq →
  only (forwards validators d) (on_pr_comment SWEEP_LOGIN world rq).
Proof.
  intros Hrq. unfold on_pr_comment. repeat only_step; try exact I.
  simpl. eexists. split; [left; eauto|done].
Qed.

Lemma forwards_on_issue_comment_created :
  only (forwards validators d)
    (on_issue_comment_created SWEEP_LOGIN validators world str_lower d).
Proof.
  unfold on_issue_comment_created. only_step.
  destruct (issue (base rq)) as [i|] eqn:Hi;
    [|by apply forwards_on_pr_comment].
  destruct (_ && _); [|by apply forwards_on_pr_comment].
  only_step. simpl. eexists _, _. split; [right; eauto|].
  by rewrite !or_empty_default.
Qed.

Lemma forwards_on_review_comment_created :
  only (forwards validators d) (on_review_comment_created validators world str_lower d).
Proof.
  unfold on_review_comment_created. repeat only_step.
  simpl. eexists. split; [right; left; eauto|done].
Qed.

Lemma forwards_on_check_run_completed :
  only (forwards validators d) (on_check_run_completed validators world d).
Proof.
  unfold on_check_run_completed. repeat only_step; try exact I.
  simpl. eexists. split; [right; right; eauto|done].
Qed.

Lemma forwards_index_added_repositories n repos :
  only (forwards validators d) (index_added_repositories world n repos).
Proof.
  induction repos as [|repo repos IH]; simpl; [apply only_ret|].
  repeat only_step; (exact I || exact IH).
Qed.

Lemma forwards_on_repositories_added :
  only (forwards validators d) (on_repositories_added validators world d).
Proof.
  unfold on_repositories_added. repeat only_step; try exact I.
  apply forwards_index_added_repositories.
Qed.

Lemma forwards_index_repositories n repos :
  only (forwards validators d) (index_repositories world n repos).
Proof.
  induction repos as [|repo repos IH]; simpl; [apply only_ret|].
  repeat only_step; (exact I || exact IH).
Qed.

Lemma forwards_on_installation_created :
  only (forwards validators d) (on_installation_created validators world d).
Proof.
  unfold on_installation_created. only_step.
  apply forwards_index_repositories.
Qed.

Lemma forwards_spawn_update_index :
  only (forwards validators d) (spawn_update_index world d).
Proof. unfold spawn_update_index. repeat only_step. exact I. Qed.

Lemma forwards_on_pull_request_closed :
  only (forwards validators d)
    (on_pull_request_closed SWEEP_LOGIN validators world d).
Proof.
  unfold on_pull_request_closed. repeat only_step; try exact I.
  all: apply forwards_spawn_update_index.
Qed.

Lemma forwards_on_push event :
  only (forwards validators d) (on_push world event d).
Proof.
  unfold on_push. repeat only_step; try exact I.
  all: apply forwards_spawn_update_index.
Qed.

Lemma forwards_dispatch event :
  only (forwards validators d)
    (dispatch LABEL_NAME LABEL_COLOR LABEL_DESCRIPTION SWEEP_LOGIN validators
       world str_lower event d).
Proof.
  unfold dispatch.
  repeat match goal with
         | |- only _ (if ?b then _ else _) => destruct b
         end.
  all: repeat only_step; try exact I.
  - apply forwards_on_issues_opened.
  - apply forwards_on_issues_labeled.
  - apply forwards_on_issue_comment_created.
  - apply forwards_on_review_comment_created.
  - apply forwards_on_check_run_completed.
  - apply forwards_on_repositories_added.
  - apply forwards_on_installation_created.
  - apply forwards_on_pull_request_closed.
  - apply forwards_on_push.
Qed.

Lemma forwards_webhook_except {A} e :
  only (forwards validators d) (webhook_except (A:=A) e).
Proof. destruct e; simpl; repeat only_step; exact I. Qed.

Abbreviation the_webhook :=
  (webhook LABEL_NAME LABEL_COLOR LABEL_DESCRIPTION SWEEP_LOGIN validators
     world str_lower).
Abbreviation the_webhook_try :=
  (webhook_try LABEL_NAME LABEL_COLOR LABEL_DESCRIPTION SWEEP_LOGIN validators
     world str_lower).

(** C4, as the code has it. Of the invocations a request makes, every
    resolve-ticket one (issue labelled, issue comment) carries the issue body
    and the repository description of the validated payload with [None]
    replaced by the empty string, and every handle-comment one (comment on a
    pull request, review comment, check run) carries the repository
    description of the validated payload as it is. *)
Theorem ticket_triggers_normalized (raw_request : Request) :
  json_body raw_request = Some (JObj d) →
  Forall (forwards validators d) (serve (the_webhook raw_request)).2.
Proof.
  intros Hbody.
  assert (only (forwards validators d) (the_webhook raw_request)) as Honly.
  { unfold webhook. apply only_bind; [|intros [?|]; apply only_ret].
    apply only_try_catch; [|apply forwards_webhook_except].
    unfold webhook_try. rewrite Hbody.
    apply only_pure_bind, only_pure_bind.
    repeat only_step; try exact I.
    apply forwards_dispatch. }
  destruct (Honly []) as (new & Hnew & HP). unfold serve.
  by rewrite Hnew.
Qed.

(** ** What reaches the request boundary *)

Lemma dispatch_returns event request_dict tr r tr' :
  dispatch LABEL_NAME LABEL_COLOR LABEL_DESCRIPTION SWEEP_LOGIN validators
    world str_lower event request_dict tr = (Ok (Some r), tr') →
  r = pong.
Proof.
  unfold dispatch.
  repeat match goal with
         | |- context [if ?b then _ else _] => destruct b
         end.
  all: try (rewrite bind_run;
            match goal with
            | |- context [match ?m ?t with _ => _ end] =>
                destruct (m t) as [[?|?] ?]
            end; by intros [=]).
  all: by intros [=].
Qed.

Lemma webhook_try_returns raw_request tr r tr' :
  the_webhook_try raw_request tr = (Ok (Some r), tr') → r = pong.
Proof.
  unfold webhook_try. rewrite bind_run. unfold lift at 1.
  destruct (json_body raw_request) as [j|]; [|by intros [=]].
  rewrite bind_run.
  destruct j; try (by intros [=]). simpl.
  destruct (headers_get _ _); [|by intros [=]].
  apply dispatch_returns.
Qed.


(** C8. A payload that is a JSON object, with event kind "ping" and no
    action, is answered [{"message": "pong"}]; the only effect is the log
    record of the request: no task is dispatched and no service is called. *)
Theorem ping_pong (raw_request : Request) :
  json_body raw_request = Some (JObj d) →
  headers_get "X-GitHub-Event" (headers raw_request) = Some "ping" →
  is_None (dict_get d "action") = true →
  serve (the_webhook raw_request)
  = (Ok pong, [Log INFO [Lit "Received request: "; Names (map_to_list d).*1]]).
Proof.
  intros Hbody Hevent Haction.
  unfold serve, webhook, webhook_try.
  rewrite bind_run, try_catch_run, bind_run, Hbody.
  unfold lift at 1. rewrite bind_run. unfold mret at 1, M_ret at 1.
  rewrite bind_run. unfold emit at 1, modify at 1.
  rewrite Hevent. unfold dispatch. simpl. by rewrite Haction.
Qed.


End Webhook_facts.

(** ** The statements on sample requests *)

(** C4 as stated fails on the review-comment path: the repository
    description reaches the handle-comment task as [None]. *)
Lemma review_comment_description_counterexample :
  ∃ a, handle_comment_spawn a ∈ (serve (sample_webhook sample_review_comment)).2 ∧
       repo_description a = None.
Proof.
  exists {| repo_full_name := "acme/widgets";
            repo_description := None;
            comment_text := "rename this";
            pr_path := Some "src/a.py";
            pr_line_position := Some 42%Z;
            username := "octocat";
            installation_id := 17;
            c_pr_number := 7 |}.
  split; [|reflexivity].
  vm_compute. apply list_elem_of_further, list_elem_of_here.
Qed.

Lemma ticket_triggers_normalized_witness :
  Forall (forwards sample_validators issue_labeled_payload)
    (serve (sample_webhook sample_issue_labeled)).2 ∧
  (serve (sample_webhook sample_issue_labeled)).2 !! 1%nat
  = Some (handle_ticket_spawn
            {| t_title := "Sweep: fix typo";
               t_body := Some EmptyString;
               t_number := 3;
               t_html_url := "https://example.org/i/3";
               t_login := "octocat";
               t_full_name := "acme/widgets";
               t_description := Some EmptyString;
               t_installation_id := 17;
               t_comment_id := None |}).
Proof.
  split; [|reflexivity].
  apply (ticket_triggers_normalized "sweep" "0E8A16"
           "Sweep your software chores" "sweep-ai[bot]" sample_validators
           sample_world ascii_lower issue_labeled_payload sample_issue_labeled).
  reflexivity.
Defined.



Lemma ping_pong_witness :
  serve (sample_webhook sample_ping)
  = (Ok pong,
     [Log INFO [Lit "Received request: "; Names (map_to_list ping_payload).*1]]).
Proof.
  apply (ping_pong "sweep" "0E8A16" "Sweep your software chores"
           "sweep-ai[bot]" sample_validators sample_world ascii_lower ping_payload
           sample_ping); reflexivity.
Defined.



End api_facts.

(** * Further properties of the quota governor *)

Module governor_facts.
Import chat_logger chat_logger_facts governor.

(** ** Methods that only read *)

Section Read_only.

Context {A B : Type}.

Lemma read_only_ret (a : A) : read_only (mret a).
Proof. by intros st. Qed.

Lemma read_only_raise (e : exn) : read_only (raise e : M State A).
Proof. by intros st. Qed.

Lemma read_only_lift (o : outcome A) : read_only (lift o).
Proof. by intros st. Qed.

Lemma read_only_bind (m : M State A) (f : A → M State B) :
  read_only m → (∀ a, read_only (f a)) → read_only (m ≫= f).
Proof.
  intros Hm Hf st. rewrite bind_run. specialize (Hm st).
  destruct (m st) as [[a|e] st1]; simpl in *; [|done].
  by rewrite Hf.
Qed.

Lemma read_only_try_catch (m : M State A) (h : exn → M State A) :
  read_only m → (∀ e, read_only (h e)) → read_only (try_catch m h).
Proof.
  intros Hm Hh st. rewrite try_catch_run. specialize (Hm st).
  destruct (m st) as [[a|e] st1]; simpl in *; [done|].
  by rewrite Hh.
Qed.

End Read_only.

Lemma read_only_get : read_only (get : M State State).
Proof. by intros st. Qed.

Lemma read_only_logger l msg : read_only (logger l msg).
Proof. by intros st. Qed.

Lemma read_only_data_item k : read_only (data_item k).
Proof.
  unfold data_item. apply read_only_bind; [apply read_only_get|].
  intros st. destruct (data (self st) !! k);
    [apply read_only_ret|apply read_only_raise].
Qed.

Ltac read_only_step :=
  lazymatch goal with
  | |- read_only (_ ≫= _) => apply read_only_bind; [|intros ?]
  | |- read_only (try_catch _ _) => apply read_only_try_catch; [|intros ?]
  | |- read_only (mret _) => apply read_only_ret
  | |- read_only (raise _) => apply read_only_raise
  | |- read_only (lift _) => apply read_only_lift
  | |- read_only get => apply read_only_get
  | |- read_only (logger _ _) => apply read_only_logger
  | |- read_only (data_item _) => apply read_only_data_item
  | |- read_only (if ?b then _ else _) => destruct b
  | |- read_only (match ?x with _ => _ end) => destruct x
  end.

Lemma read_only_get_ticket_count (use_date gpt3 : bool) :
  read_only (get_ticket_count use_date gpt3).
Proof. unfold get_ticket_count. repeat read_only_step. Qed.

Lemma read_only_is_paying_user : read_only is_paying_user.
Proof. unfold is_paying_user. repeat read_only_step. Qed.

Lemma read_only_is_trial_user : read_only is_trial_user.
Proof. unfold is_trial_user. repeat read_only_step. Qed.

Section Governor_more.

Variable str_lower : string → string.
Variable SUPPORT_COUNTRY : list string.
Variable geocode : option string → outcome (option Location).
Variable g : Github.

Lemma read_only_check_location :
  read_only (check_location_and_ticket_count str_lower SUPPORT_COUNTRY geocode g).
Proof.
  unfold check_location_and_ticket_count, location_try, is_supported_country.
  read_only_step.
  - read_only_step.
    + repeat read_only_step; apply read_only_get_ticket_count.
    + unfold location_except. repeat read_only_step.
  - repeat read_only_step; apply read_only_get_ticket_count.
Qed.

(** [use_faster_model] and the methods it reads with never change the
    object or the documents of the collection, whatever the data, the
    collection and the services are, and whether they return or raise. *)
Theorem use_faster_model_read_only :
  read_only (use_faster_model str_lower SUPPORT_COUNTRY geocode g) ∧
  read_only is_paying_user ∧
  read_only is_trial_user ∧
  ∀ use_date gpt3, read_only (get_ticket_count use_date gpt3).
Proof.
  split; [|auto using read_only_is_paying_user, read_only_is_trial_user,
                      read_only_get_ticket_count].
  unfold use_faster_model. repeat read_only_step.
  all: first [apply read_only_get_ticket_count | apply read_only_is_paying_user
             | apply read_only_is_trial_user | apply read_only_check_location].
Qed.

(** For a trial user who is not paying the result is
    [monthly count >= 15]: false at 14 and true at 15, whatever the daily
    count and the geolocation services are. *)
Theorem trial_user_boundary cl c u :
  ticket_collection cl = Some c →
  data cl !! "username" = Some u →
  paying cl u = false →
  trial cl u = true →
  let monthly := count_of cl u (current_month cl) in
  let result := returns (use_faster_model str_lower SUPPORT_COUNTRY geocode g) cl in
  result = Ok (15 <=? monthly)%Z ∧
  (monthly = 14%Z → result = Ok false) ∧
  (monthly = 15%Z → result = Ok true).
Proof.
  intros Hc Hu Hp Ht monthly result.
  assert (result = Ok (15 <=? monthly)%Z) as ->.
  { subst result. by rewrite (use_faster_model_returns _ _ _ _ cl c u), Hp, Ht. }
  split; [done|]. split; intros ->; reflexivity.
Qed.

(** When the look-up of the user or the geocoder raises [SystemExit] for a
    free-tier user, [use_faster_model] raises [SystemExit]: it is not
    turned into a decision. *)
Theorem system_exit_propagates cl c u :
  ticket_collection cl = Some c →
  data cl !! "username" = Some u →
  paying cl u = false →
  trial cl u = false →
  get_user g u = Raise SystemExit ∨
  (∃ user, get_user g u = Ok user ∧ geocode (location user) = Raise SystemExit) →
  returns (use_faster_model str_lower SUPPORT_COUNTRY geocode g) cl = Raise SystemExit.
Proof.
  intros Hc Hu Hp Ht Hexit.
  rewrite (use_faster_model_returns _ _ _ _ cl c u), Hp, Ht by done.
  unfold classify.
  by destruct Hexit as [->|(user & -> & ->)].
Qed.

(** With an initialised collection and no "username" in the data,
    [use_faster_model], [get_ticket_count] and [add_successful_ticket] raise
    [KeyError], also when the data has an assignee, and the collection is
    left as it was. *)
Theorem username_required cl c (use_date gpt3 : bool) :
  ticket_collection cl = Some c →
  data cl !! "username" = None →
  returns (use_faster_model str_lower SUPPORT_COUNTRY geocode g) cl
    = Raise (KeyError "username") ∧
  returns (get_ticket_count use_date gpt3) cl = Raise (KeyError "username") ∧
  returns (add_successful_ticket gpt3) cl = Raise (KeyError "username") ∧
  after (add_successful_ticket gpt3) cl = cl.
Proof.
  intros Hc Hu. unfold returns, after, call.
  set (st := {| self := cl; logged := [] |}).
  assert (is_paying_user st = (Raise (KeyError "username"), st)) as Hpaying.
  { unfold is_paying_user. rewrite bind_run. unfold get at 1. simpl.
    rewrite Hc. by rewrite bind_run, data_item_missing. }
  assert (get_ticket_count use_date gpt3 st
          = (Raise (KeyError "username"), st)) as ->.
  { unfold get_ticket_count. rewrite bind_run. unfold get at 1. simpl.
    rewrite Hc. by rewrite bind_run, data_item_missing. }
  assert (add_successful_ticket gpt3 st
          = (Raise (KeyError "username"), st)) as ->.
  { unfold add_successful_ticket. rewrite bind_run. unfold get at 1. simpl.
    rewrite Hc. by rewrite bind_run, data_item_missing. }
  assert (use_faster_model str_lower SUPPORT_COUNTRY geocode g st
          = (Raise (KeyError "username"), st)) as ->.
  { unfold use_faster_model. rewrite bind_run. unfold get at 1. simpl.
    rewrite Hc. by rewrite bind_run, Hpaying. }
  done.
Qed.

End Governor_more.

(** For a paying or a trial user the result does not depend on the
    allow-list, the platform client or the geocoder (nor on what
    [str.lower] does). *)
Theorem tier_ignores_geolocation cl c u
    (lower1 lower2 : string → string)
    (support1 support2 : list string)
    (geocode1 geocode2 : option string → outcome (option Location))
    (g1 g2 : Github) :
  ticket_collection cl = Some c →
  data cl !! "username" = Some u →
  paying cl u = true ∨ trial cl u = true →
  returns (use_faster_model lower1 support1 geocode1 g1) cl
  = returns (use_faster_model lower2 support2 geocode2 g2) cl.
Proof.
  intros Hc Hu Htier.
  rewrite !(use_faster_model_returns _ _ _ _ cl c u) by done.
  unfold decision. destruct (paying cl u); [done|].
  by destruct Htier as [?| ->].
Qed.

(** ** Recording and reading tickets *)

Lemma after_add_successful_ticket cl c u (gpt3 : bool) :
  ticket_collection cl = Some c →
  data cl !! "username" = Some u →
  returns (add_successful_ticket gpt3) cl = Ok tt ∧
  after (add_successful_ticket gpt3) cl
  = with_ticket_collection
      (update_one_inc (default u (data cl !! "assignee"))
         (ticket_increments cl gpt3) c) cl.
Proof.
  intros Hc Hu. unfold returns, after, call.
  by rewrite (add_successful_ticket_run _ c u).
Qed.

Lemma stored_after_update cl c owner upd v :
  ticket_collection cl = Some c →
  stored (with_ticket_collection (update_one_inc owner upd c) cl) v
  = if decide (v = owner) then inc upd (stored cl owner) else stored cl v.
Proof.
  intros Hc. unfold stored, update_one_inc. simpl. rewrite Hc.
  case_decide as Hv.
  - subst v. by rewrite lookup_insert_eq.
  - by rewrite lookup_insert_ne.
Qed.

Lemma returns_get_ticket_count cl c u (use_date gpt3 : bool) :
  ticket_collection cl = Some c →
  data cl !! "username" = Some u →
  returns (get_ticket_count use_date gpt3) cl
  = Ok (count_of cl u (tracking_key cl use_date gpt3)).
Proof.
  intros Hc Hu. unfold returns, call.
  by rewrite (get_ticket_count_run _ c u).
Qed.

(** What [add_successful_ticket] writes, [get_ticket_count] reads: when the
    data has no assignee, after one call made with a cheap-tier flag the
    count read with the same flag, by month or by day, is one more than
    before. *)
Theorem ticket_round_trip cl c u (use_date gpt3 : bool) :
  ticket_collection cl = Some c →
  data cl !! "username" = Some u →
  data cl !! "assignee" = None →
  ∃ n, returns (get_ticket_count use_date gpt3) cl = Ok n ∧
       returns (get_ticket_count use_date gpt3)
         (after (add_successful_ticket gpt3) cl) = Ok (n + 1)%Z.
Proof.
  intros Hc Hu Ha.
  destruct (after_add_successful_ticket cl c u gpt3 Hc Hu) as [_ ->].
  rewrite Ha. simpl.
  eexists. split; [by apply (returns_get_ticket_count cl c u)|].
  rewrite (returns_get_ticket_count _ (update_one_inc u _ c) u) by done.
  f_equal. unfold tracking_key. simpl.
  rewrite (count_of_update cl c) by done. rewrite decide_True by done.
  f_equal. unfold ticket_increments, gpt3_key.
  destruct gpt3; [by rewrite lookup_singleton_eq|].
  destruct use_date; [by rewrite lookup_insert_eq|].
  rewrite lookup_insert. case_decide; [done|].
  by rewrite lookup_singleton_eq.
Qed.

(** A ticket recorded for a logger whose data names an assignee other than
    the user goes to the assignee's document: every count read for the
    user, and with it the decision of [use_faster_model] for the user, is
    what it was before. *)
Theorem assignee_ticket_not_counted cl c u a (gpt3 : bool)
    (str_lower : string → string) (SUPPORT_COUNTRY : list string)
    (geocode : option string → outcome (option Location)) (g : Github) :
  ticket_collection cl = Some c →
  data cl !! "username" = Some u →
  data cl !! "assignee" = Some a →
  a ≠ u →
  let cl' := after (add_successful_ticket gpt3) cl in
  (∀ use_date cheap,
     returns (get_ticket_count use_date cheap) cl'
     = returns (get_ticket_count use_date cheap) cl) ∧
  returns (use_faster_model str_lower SUPPORT_COUNTRY geocode g) cl'
  = returns (use_faster_model str_lower SUPPORT_COUNTRY geocode g) cl ∧
  count_of cl' a (tracking_key cl false gpt3)
  = (count_of cl a (tracking_key cl false gpt3) + 1)%Z.
Proof.
  intros Hc Hu Ha Hne cl'. subst cl'.
  destruct (after_add_successful_ticket cl c u gpt3 Hc Hu) as [_ ->].
  rewrite Ha. simpl.
  set (c' := update_one_inc a _ c).
  assert (stored (with_ticket_collection c' cl) u = stored cl u) as Hstored.
  { subst c'. rewrite (stored_after_update cl c) by done.
    by rewrite decide_False. }
  split; [|split].
  - intros use_date cheap.
    rewrite (returns_get_ticket_count _ c' u),
      (returns_get_ticket_count cl c u) by done.
    unfold count_of. by rewrite Hstored.
  - rewrite (use_faster_model_returns _ _ _ _ _ c' u),
      (use_faster_model_returns _ _ _ _ cl c u) by done.
    unfold paying, trial, count_of. by rewrite Hstored.
  - subst c'. rewrite (count_of_update cl c) by done.
    rewrite decide_True by done. f_equal.
    unfold tracking_key, ticket_increments.
    destruct gpt3; [by rewrite lookup_singleton_eq|].
    rewrite lookup_insert. case_decide; [done|].
    by rewrite lookup_singleton_eq.
Qed.

(** [add_successful_ticket] changes one document only and no tier flag: the
    data and the period keys of the object, the flags of every user and the
    documents of the users other than the one recorded for are what they
    were. *)
Theorem add_successful_ticket_frame cl c u (gpt3 : bool) :
  ticket_collection cl = Some c →
  data cl !! "username" = Some u →
  let cl' := after (add_successful_ticket gpt3) cl in
  let owner := default u (data cl !! "assignee") in
  data cl' = data cl ∧
  current_date cl' = current_date cl ∧
  current_month cl' = current_month cl ∧
  (∀ v, paying cl' v = paying cl v ∧ trial cl' v = trial cl v) ∧
  (∀ v, v ≠ owner → stored cl' v = stored cl v).
Proof.
  intros Hc Hu cl' owner. subst cl'.
  destruct (after_add_successful_ticket cl c u gpt3 Hc Hu) as [_ ->].
  fold owner. repeat split; try done.
  - unfold paying. rewrite (stored_after_update cl c) by done.
    case_decide; by subst.
  - unfold trial. rewrite (stored_after_update cl c) by done.
    case_decide; by subst.
  - intros v Hv. rewrite (stored_after_update cl c) by done.
    by rewrite decide_False.
Qed.

(** The first ticket of a user the collection has no document for creates
    the document (upsert): afterwards the monthly and the daily count read 1
    and the user is neither paying nor trial. *)
Theorem first_ticket_creates_document cl c u :
  ticket_collection cl = Some c →
  data cl !! "username" = Some u →
  data cl !! "assignee" = None →
  c !! u = None →
  let cl' := after (add_successful_ticket false) cl in
  returns (get_ticket_count false false) cl' = Ok 1%Z ∧
  returns (get_ticket_count true false) cl' = Ok 1%Z ∧
  returns is_paying_user cl' = Ok false ∧
  returns is_trial_user cl' = Ok false.
Proof.
  intros Hc Hu Ha Hnew cl'. subst cl'.
  destruct (after_add_successful_ticket cl c u false Hc Hu) as [_ ->].
  rewrite Ha. simpl.
  set (c' := update_one_inc u _ c).
  assert (stored (with_ticket_collection c' cl) u
          = inc (ticket_increments cl false) empty_record) as Hstored.
  { subst c'. rewrite (stored_after_update cl c) by done.
    rewrite decide_True by done. unfold stored. by rewrite Hc, Hnew. }
  rewrite !(returns_get_ticket_count _ c' u) by done.
  unfold returns, call.
  rewrite (is_paying_user_run _ c' u), (is_trial_user_run _ c' u) by done.
  unfold count_of, paying, trial, tracking_key. simpl. rewrite Hstored.
  unfold inc, ticket_increments. simpl.
  rewrite !lookup_union_with, !lookup_empty.
  rewrite lookup_insert_eq, lookup_insert.
  case_decide; [done|]. by rewrite lookup_singleton_eq.
Qed.

(** [get_ticket_count] reads 0 when the collection is not initialised (then
    it logs the error and does not look at the data), when the user has no
    document, and when the document has no field for the period. *)
Theorem get_ticket_count_defaults cl (use_date gpt3 : bool) :
  (ticket_collection cl = None →
   call (get_ticket_count use_date gpt3) cl
   = (Ok 0%Z,
      {| self := cl;
         logged := [(ERROR, [Txt "Ticket Collection Does Not Exist"])] |})) ∧
  (∀ c u,
     ticket_collection cl = Some c →
     data cl !! "username" = Some u →
     c !! u = None ∨
     (∃ r, c !! u = Some r ∧
           counters r !! tracking_key cl use_date gpt3 = None) →
     returns (get_ticket_count use_date gpt3) cl = Ok 0%Z).
Proof.
  split.
  - intros Hc. unfold call, get_ticket_count.
    rewrite bind_run. unfold get at 1. simpl. rewrite Hc.
    by rewrite bind_run, logger_run.
  - intros c u Hc Hu Hnone.
    rewrite (returns_get_ticket_count cl c u) by done.
    unfold count_of, stored. rewrite Hc.
    destruct Hnone as [->|(r & -> & Hr)]; simpl; [done|by rewrite Hr].
Qed.

(** ** The allow-list *)

Lemma lower_letter_idempotent (a : ascii) :
  lower_letter (lower_letter a) = lower_letter a.
Proof. by destruct a as [[] [] [] [] [] [] [] []]. Qed.

Lemma ascii_lower_idempotent (s : string) :
  ascii_lower (ascii_lower s) = ascii_lower s.
Proof.
  induction s as [|a s IH]; simpl; [done|].
  by rewrite lower_letter_idempotent, IH.
Qed.

Lemma is_supported_lower (str_lower : string → string) (cs : list string)
    (loc : option Location) :
  (∀ s, str_lower (str_lower s) = str_lower s) →
  is_supported_country_from str_lower (str_lower <$> cs) loc
  = is_supported_country_from str_lower cs loc.
Proof.
  intros Hidem. induction cs as [|country cs IH]; [done|].
  rewrite fmap_cons. cbn [is_supported_country_from].
  destruct loc as [l|]; [|done].
  destruct (raw l !! "display_name"); [|done].
  by rewrite Hidem, IH.
Qed.

(** Matching against the allow-list ignores case, in the sense of
    [str.lower]: given that lower-casing a lower-cased string changes
    nothing, writing the entries of [SUPPORT_COUNTRY] in lower case changes
    no decision; and two places whose display names have the same lower-case
    form are supported alike. *)
Theorem allow_list_ignores_case cl c u
    (str_lower : string → string) (SUPPORT_COUNTRY : list string)
    (geocode : option string → outcome (option Location)) (g : Github) :
  ticket_collection cl = Some c →
  data cl !! "username" = Some u →
  (∀ s, str_lower (str_lower s) = str_lower s) →
  returns (use_faster_model str_lower (str_lower <$> SUPPORT_COUNTRY)
             geocode g) cl
  = returns (use_faster_model str_lower SUPPORT_COUNTRY geocode g) cl ∧
  (∀ loc1 loc2 name1 name2,
     raw loc1 !! "display_name" = Some name1 →
     raw loc2 !! "display_name" = Some name2 →
     str_lower name1 = str_lower name2 →
     is_supported_country_from str_lower SUPPORT_COUNTRY (Some loc1)
     = is_supported_country_from str_lower SUPPORT_COUNTRY (Some loc2)).
Proof.
  intros Hc Hu Hidem. split.
  - rewrite !(use_faster_model_returns _ _ _ _ cl c u) by done.
    f_equal. unfold classify.
    destruct (get_user g u) as [user|]; [|done].
    destruct (geocode (location user)); [|done].
    by rewrite is_supported_lower.
  - intros loc1 loc2 name1 name2 H1 H2 Hlow.
    induction SUPPORT_COUNTRY as [|country cs IH]; simpl; [done|].
    by rewrite H1, H2, Hlow, IH.
Qed.

(** With an empty [SUPPORT_COUNTRY] the loop of [is_supported_country] never
    looks at the location: whatever the geocoder returns, a place or
    nothing, a free-tier user is held to the thresholds of an unsupported
    country, monthly count >= 5 or daily count >= 1. *)
Theorem empty_allow_list_is_strict cl c u user loc
    (str_lower : string → string)
    (geocode : option string → outcome (option Location)) (g : Github) :
  ticket_collection cl = Some c →
  data cl !! "username" = Some u →
  paying cl u = false →
  trial cl u = false →
  get_user g u = Ok user →
  geocode (location user) = Ok loc →
  ∃ b, returns (use_faster_model str_lower [] geocode g) cl = Ok b ∧
       (b = true ↔ (5 ≤ count_of cl u (current_month cl) ∨
                    1 ≤ count_of cl u (current_date cl))%Z).
Proof.
  intros Hc Hu Hp Ht Hg Hgeo.
  rewrite (use_faster_model_returns _ _ _ _ cl c u), Hp, Ht by done.
  unfold classify. rewrite Hg, Hgeo. simpl.
  eexists; split; [done|apply strict_iff].
Qed.

(** An empty string among the entries of [SUPPORT_COUNTRY] matches every
    display name ([str.lower] maps the empty string to itself): a free-tier
    user whose location is geocoded to any place with a display name is
    decided by monthly count >= 5 or daily count > 3. *)
Theorem blank_entry_supports_every_place cl c u user loc display_name
    (str_lower : string → string) (SUPPORT_COUNTRY : list string)
    (geocode : option string → outcome (option Location)) (g : Github) :
  ticket_collection cl = Some c →
  data cl !! "username" = Some u →
  paying cl u = false →
  trial cl u = false →
  str_lower EmptyString = EmptyString →
  EmptyString ∈ SUPPORT_COUNTRY →
  get_user g u = Ok user →
  geocode (location user) = Ok (Some loc) →
  raw loc !! "display_name" = Some display_name →
  ∃ b, returns (use_faster_model str_lower SUPPORT_COUNTRY geocode g) cl = Ok b ∧
       (b = true ↔ (5 ≤ count_of cl u (current_month cl) ∨
                    3 < count_of cl u (current_date cl))%Z).
Proof.
  intros Hc Hu Hp Ht Hempty Hblank Hg Hgeo Hname.
  rewrite (use_faster_model_returns _ _ _ _ cl c u), Hp, Ht by done.
  unfold classify.
  rewrite Hg, Hgeo, (supported_some_matches _ _ _ display_name); [|done|].
  - eexists; split; [done|apply loose_iff].
  - apply Exists_exists. exists EmptyString. split; [done|].
    rewrite Hempty. by destruct (str_lower display_name).
Qed.

(** A location without a display name, like a missing location, makes
    [is_supported_country] raise as soon as the allow-list has an entry;
    the exception is swallowed and the free-tier user is decided by monthly
    count >= 5 or daily count > 3. *)
Theorem nameless_place_falls_through cl c u user loc
    (str_lower : string → string) (SUPPORT_COUNTRY : list string)
    (geocode : option string → outcome (option Location)) (g : Github) :
  ticket_collection cl = Some c →
  data cl !! "username" = Some u →
  paying cl u = false →
  trial cl u = false →
  SUPPORT_COUNTRY ≠ [] →
  get_user g u = Ok user →
  geocode (location user) = Ok (Some loc) →
  raw loc !! "display_name" = None →
  is_supported_country_from str_lower SUPPORT_COUNTRY (Some loc) = Raise AttributeError ∧
  ∃ b, returns (use_faster_model str_lower SUPPORT_COUNTRY geocode g) cl = Ok b ∧
       (b = true ↔ (5 ≤ count_of cl u (current_month cl) ∨
                    3 < count_of cl u (current_date cl))%Z).
Proof.
  intros Hc Hu Hp Ht Hne Hg Hgeo Hname.
  assert (is_supported_country_from str_lower SUPPORT_COUNTRY (Some loc)
          = Raise AttributeError) as Hraise.
  { destruct SUPPORT_COUNTRY; [done|]. simpl. by rewrite Hname. }
  split; [done|].
  rewrite (use_faster_model_returns _ _ _ _ cl c u), Hp, Ht by done.
  unfold classify. rewrite Hg, Hgeo, Hraise. simpl.
  eexists; split; [done|apply loose_iff].
Qed.

(** ** Monotonicity in the daily count *)

Lemma stored_with_daily cl c u n :
  ticket_collection cl = Some c →
  data cl !! "username" = Some u →
  stored (with_daily n cl) u
  = {| counters := <[current_date cl := n]> (counters (stored cl u));
       doc_is_paying_user := doc_is_paying_user (stored cl u);
       doc_is_trial_user := doc_is_trial_user (stored cl u) |}.
Proof.
  intros Hc Hu. unfold with_daily, stored. rewrite Hc, Hu. simpl.
  by rewrite lookup_insert_eq.
Qed.

(** [use_faster_model] is monotonic in the daily count too: over two
    collections that differ only in the user's daily counter, [n1 <= n2],
    if it returns true at [n1] it returns true at [n2]. *)
Theorem monotonic_in_daily_count cl (n1 n2 : Z)
    (str_lower : string → string) (SUPPORT_COUNTRY : list string)
    (geocode : option string → outcome (option Location)) (g : Github) :
  (n1 ≤ n2)%Z →
  returns (use_faster_model str_lower SUPPORT_COUNTRY geocode g) (with_daily n1 cl)
    = Ok true →
  returns (use_faster_model str_lower SUPPORT_COUNTRY geocode g) (with_daily n2 cl)
    = Ok true.
Proof.
  intros Hle.
  destruct (ticket_collection cl) as [c|] eqn:Hc;
    [|by unfold with_daily; rewrite Hc].
  destruct (data cl !! "username") as [u|] eqn:Hu;
    [|by unfold with_daily; rewrite Hc, Hu].
  assert (∀ n, ∃ c', ticket_collection (with_daily n cl) = Some c' ∧
                     data (with_daily n cl) !! "username" = Some u ∧
                     current_month (with_daily n cl) = current_month cl ∧
                     current_date (with_daily n cl) = current_date cl)
    as Hshape.
  { intros n. unfold with_daily. rewrite Hc, Hu. simpl. by eexists. }
  destruct (Hshape n1) as (c1 & Hc1 & Hu1 & Hm1 & Hd1).
  destruct (Hshape n2) as (c2 & Hc2 & Hu2 & Hm2 & Hd2).
  rewrite (use_faster_model_returns _ _ _ _ _ c1 u),
    (use_faster_model_returns _ _ _ _ _ c2 u) by done.
  unfold paying, trial, count_of.
  rewrite !(stored_with_daily cl c u) by done. simpl.
  rewrite Hm1, Hm2, Hd1, Hd2, !lookup_insert_eq. simpl.
  apply decision_mono; [|done].
  rewrite !lookup_insert. case_decide; simpl; lia.
Qed.

(** ** The statements on sample users *)

Lemma trial_user_boundary_witness :
  returns (use_faster_model ascii_lower sample_support sample_geocode sample_github)
    (sample_trial 14) = Ok false ∧
  returns (use_faster_model ascii_lower sample_support sample_geocode sample_github)
    (sample_trial 15) = Ok true.
Proof.
  split.
  - apply (trial_user_boundary ascii_lower sample_support sample_geocode sample_github
             (sample_trial 14) _ "alice" eq_refl eq_refl eq_refl eq_refl).
    reflexivity.
  - apply (trial_user_boundary ascii_lower sample_support sample_geocode sample_github
             (sample_trial 15) _ "alice" eq_refl eq_refl eq_refl eq_refl).
    reflexivity.
Defined.

Lemma system_exit_propagates_witness :
  returns (use_faster_model ascii_lower sample_support exiting_geocode sample_github)
    sample_alice = Raise SystemExit.
Proof.
  apply (system_exit_propagates ascii_lower sample_support exiting_geocode
           sample_github
           sample_alice _ "alice" eq_refl eq_refl eq_refl eq_refl).
  right. eexists. split; reflexivity.
Defined.

Lemma username_required_witness :
  returns (add_successful_ticket false) sample_nameless
    = Raise (KeyError "username") ∧
  after (add_successful_ticket false) sample_nameless = sample_nameless.
Proof.
  pose proof (username_required ascii_lower sample_support sample_geocode sample_github
                sample_nameless ∅ false false eq_refl eq_refl)
    as (_ & _ & Hraise & Hsame).
  by split.
Defined.

Lemma tier_ignores_geolocation_witness :
  returns (use_faster_model ascii_lower sample_support sample_geocode sample_github)
    (sample_trial 15)
  = returns (use_faster_model ascii_lower [] exiting_geocode sample_github)
      (sample_trial 15).
Proof.
  eapply (tier_ignores_geolocation (sample_trial 15) _ "alice");
    [reflexivity..|].
  right. reflexivity.
Defined.

Lemma ticket_round_trip_witness :
  ∃ n, returns (get_ticket_count true false) sample_alice = Ok n ∧
       returns (get_ticket_count true false)
         (after (add_successful_ticket false) sample_alice) = Ok (n + 1)%Z.
Proof.
  eapply (ticket_round_trip sample_alice _ "alice" true false);
    reflexivity.
Defined.

Lemma assignee_ticket_not_counted_witness :
  returns (use_faster_model ascii_lower sample_support sample_geocode sample_github)
    (after (add_successful_ticket false) sample_assigned)
  = returns (use_faster_model ascii_lower sample_support sample_geocode sample_github)
      sample_assigned.
Proof.
  eapply (assignee_ticket_not_counted sample_assigned _ "alice" "bob" false
           ascii_lower sample_support sample_geocode sample_github);
    [reflexivity..|discriminate].
Defined.

Lemma add_successful_ticket_frame_witness :
  data (after (add_successful_ticket true) sample_assigned)
  = data sample_assigned ∧
  stored (after (add_successful_ticket true) sample_assigned) "alice"
  = stored sample_assigned "alice".
Proof.
  pose proof (add_successful_ticket_frame sample_assigned
                {[ "alice" := sample_record None None 4 0 ]} "alice" true
                eq_refl eq_refl) as (Hdata & _ & _ & _ & Hothers).
  split; [exact Hdata|]. apply Hothers. discriminate.
Defined.

Lemma first_ticket_creates_document_witness :
  returns (get_ticket_count false false)
    (after (add_successful_ticket false) sample_newcomer) = Ok 1%Z ∧
  returns is_paying_user
    (after (add_successful_ticket false) sample_newcomer) = Ok false.
Proof.
  pose proof (first_ticket_creates_document sample_newcomer ∅ "frank"
                eq_refl eq_refl eq_refl eq_refl) as (Hm & _ & Hp & _).
  by split.
Defined.

Lemma get_ticket_count_defaults_witness :
  returns (get_ticket_count false false)
    (new_ChatLogger sample_now None ∅) = Ok 0%Z ∧
  returns (get_ticket_count true true) sample_newcomer = Ok 0%Z.
Proof.
  split.
  - pose proof (proj1 (get_ticket_count_defaults
                         (new_ChatLogger sample_now None ∅) false false)
                  eq_refl) as H.
    unfold returns. by rewrite H.
  - apply (proj2 (get_ticket_count_defaults sample_newcomer true true)
             ∅ "frank" eq_refl eq_refl).
    by left.
Defined.

Lemma allow_list_ignores_case_witness :
  returns (use_faster_model ascii_lower (ascii_lower <$> sample_support)
             sample_geocode sample_github)
    (sample_logger "dave" (sample_record None None 0 1))
  = returns (use_faster_model ascii_lower sample_support sample_geocode
               sample_github)
      (sample_logger "dave" (sample_record None None 0 1)).
Proof.
  apply (allow_list_ignores_case
           (sample_logger "dave" (sample_record None None 0 1)) _ "dave"
           ascii_lower sample_support sample_geocode sample_github
           eq_refl eq_refl ascii_lower_idempotent).
Defined.

Lemma empty_allow_list_is_strict_witness :
  returns (use_faster_model ascii_lower [] sample_geocode sample_github)
    (sample_logger "carol" (sample_record None None 0 1)) = Ok true ∧
  returns (use_faster_model ascii_lower [] sample_geocode sample_github)
    (sample_logger "dave" (sample_record None None 0 1)) = Ok true.
Proof.
  split.
  - eapply returns_true_of_iff.
    + eapply (empty_allow_list_is_strict
               (sample_logger "carol" (sample_record None None 0 1)) _ "carol"
               {| location := None |} None ascii_lower sample_geocode
               sample_github);
        reflexivity.
    + vm_compute. right. discriminate.
  - eapply returns_true_of_iff.
    + eapply (empty_allow_list_is_strict
                (sample_logger "dave" (sample_record None None 0 1)) _ "dave"
                _ _ ascii_lower sample_geocode sample_github); reflexivity.
    + vm_compute. right. discriminate.
Defined.

Lemma blank_entry_supports_every_place_witness :
  returns (use_faster_model ascii_lower [EmptyString] sample_geocode sample_github)
    (sample_logger "alice" (sample_record None None 0 3)) = Ok false.
Proof.
  eapply returns_false_of_iff.
  - eapply (blank_entry_supports_every_place
              (sample_logger "alice" (sample_record None None 0 3)) _ "alice"
              _ _ _ ascii_lower [EmptyString] sample_geocode sample_github);
      [reflexivity..|apply list_elem_of_here|reflexivity|reflexivity
      |reflexivity].
  - vm_compute. intros [H|H]; [by apply H|discriminate H].
Defined.

Lemma nameless_place_falls_through_witness :
  returns (use_faster_model ascii_lower sample_support nameless_geocode sample_github)
    (sample_logger "alice" (sample_record None None 0 3)) = Ok false.
Proof.
  eapply returns_false_of_iff.
  - eapply (proj2 (nameless_place_falls_through
                     (sample_logger "alice" (sample_record None None 0 3)) _
                     "alice" _ _ ascii_lower sample_support nameless_geocode
                     sample_github
                     eq_refl eq_refl eq_refl eq_refl _ eq_refl eq_refl
                     eq_refl)).
  - vm_compute. intros [H|H]; [by apply H|discriminate H].
  Unshelve. discriminate.
Defined.

Lemma monotonic_in_daily_count_witness :
  returns (use_faster_model ascii_lower sample_support sample_geocode sample_github)
    (with_daily 6 sample_alice) = Ok true.
Proof.
  apply (monotonic_in_daily_count sample_alice 1 6 ascii_lower sample_support
           sample_geocode sample_github); [lia|reflexivity].
Defined.

End governor_facts.

(** * Properties of the chat history *)

Module chat_history_facts.
Import chat_logger chat_history.

Section Insert_facts.

Variable insert_rejects : gmap string bson → option exn.

Lemma add_chat_run st docs additional_data :
  chat_collection (this st) = Some docs →
  insert_rejects (chat_document (this st) additional_data) = None →
  add_chat insert_rejects additional_data st
  = (Ok tt,
     {| this := {| fields := fields (this st);
                   chat_collection :=
                     Some (docs ++ [chat_document (this st) additional_data]);
                   expiration := expiration (this st);
                   index := (index (this st) + 1)%Z |};
        session_logged := session_logged st |}).
Proof.
  intros Hdocs Hok. unfold add_chat.
  rewrite bind_run. unfold get at 1. simpl. rewrite Hdocs, Hok.
  reflexivity.
Qed.

Lemma add_chats_run entries :
  ∀ st docs,
  chat_collection (this st) = Some docs →
  (∀ d, insert_rejects d = None) →
  ∃ new,
    add_chats insert_rejects entries st
    = (Ok tt,
       {| this := {| fields := fields (this st);
                     chat_collection := Some (docs ++ new);
                     expiration := expiration (this st);
                     index := (index (this st) + Z.of_nat (length entries))%Z |};
          session_logged := session_logged st |}) ∧
    length new = length entries ∧
    ∀ (k : nat) additional_data,
      entries !! k = Some additional_data →
      new !! k
      = Some (chat_document
                {| fields := fields (this st);
                   chat_collection := chat_collection (this st);
                   expiration := expiration (this st);
                   index := (index (this st) + Z.of_nat k)%Z |}
                additional_data).
Proof.
  induction entries as [|entry entries IH]; intros st docs Hdocs Hok.
  - exists []. split; [|by split].
    simpl. rewrite app_nil_r, Z.add_0_r.
    destruct st as [[] ?]. simpl in *. by subst.
  - simpl. rewrite bind_run, (add_chat_run st docs) by done.
    set (st1 := {| this := _; session_logged := _ |}).
    destruct (IH st1 (docs ++ [chat_document (this st) entry]) eq_refl Hok)
      as (new & Hrun & Hlen & Hnew).
    exists (chat_document (this st) entry :: new).
    split; [|split].
    + rewrite Hrun. subst st1. cbn [this session_logged fields expiration
        index chat_collection length]. rewrite <- app_assoc.
      replace (index (this st) + 1 + Z.of_nat (length entries))%Z
        with (index (this st) + Z.of_nat (S (length entries)))%Z by lia.
      reflexivity.
    + simpl. by rewrite Hlen.
    + intros [|k] ad Hk.
      * injection Hk as <-. simpl. f_equal. unfold chat_document.
        cbn [index expiration fields]. by rewrite Z.add_0_r.
      * rewrite lookup_cons in Hk |- *.
        rewrite (Hnew k ad Hk). subst st1. f_equal. unfold chat_document.
        cbn [this fields expiration index].
        replace (index (this st) + 1 + Z.of_nat k)%Z
          with (index (this st) + Z.of_nat (S k))%Z by lia.
        reflexivity.
Qed.

(** [add_chat] on an object whose chat collection is not initialised logs
    the error and does nothing else: the index does not advance. *)
Theorem add_chat_uninitialised s additional_data :
  chat_collection s = None →
  session_call (add_chat insert_rejects additional_data) s
  = (Ok tt,
     {| this := s;
        session_logged :=
          [(ERROR, [Txt "Chat collection is not initialized"])] |}).
Proof.
  intros Hnone. unfold session_call, add_chat.
  rewrite bind_run. unfold get at 1. simpl. by rewrite Hnone.
Qed.

(** Successive calls of [add_chat] that the store accepts append one
    document each, in call order, after the documents already there, and
    advance the index by one each: the [k]-th new document carries index
    [index + k], the expiration of the object, the entries of its
    additional data, and the entries of the object's data that the
    additional data does not override (the "_id" the store assigns
    apart). *)
Theorem add_chats_sequence s docs entries :
  chat_collection s = Some docs →
  (∀ d, insert_rejects d = None) →
  ∃ s' new,
    session_call (add_chats insert_rejects entries) s
    = (Ok tt, {| this := s'; session_logged := [] |}) ∧
    chat_collection s' = Some (docs ++ new) ∧
    length new = length entries ∧
    index s' = (index s + Z.of_nat (length entries))%Z ∧
    ∀ (k : nat) additional_data,
      entries !! k = Some additional_data →
      ∃ d, new !! k = Some d ∧
           d !! "index" = Some (BInt (index s + Z.of_nat k)) ∧
           d !! "expiration" = Some (from_option BDate BNull (expiration s)) ∧
           ∀ key, key ≠ "index" → key ≠ "expiration" → key ≠ "_id" →
                  d !! key
                  = match additional_data !! key with
                    | Some v => Some v
                    | None => BStr <$> data (fields s) !! key
                    end.
Proof.
  intros Hdocs Hok.
  destruct (add_chats_run entries {| this := s; session_logged := [] |}
              docs Hdocs Hok) as (new & Hrun & Hlen & Hnew).
  eexists _, new. split; [exact Hrun|]. simpl.
  split; [done|]. split; [done|]. split; [done|].
  intros k ad Hk. eexists. split; [by apply Hnew|].
  unfold chat_document. simpl.
  split; [by rewrite lookup_insert_eq|].
  split; [by rewrite lookup_insert_ne, lookup_insert_eq|].
  intros key Hindex Hexpiration _.
  rewrite !lookup_insert_ne by done.
  rewrite lookup_union, lookup_fmap.
  by destruct (ad !! key), (data (fields s) !! key).
Qed.

(** When [insert_one] raises, [add_chat] raises the same exception; the
    collection is as it was, but the index has already advanced. *)
Theorem add_chat_rejected s docs additional_data e :
  chat_collection s = Some docs →
  insert_rejects (chat_document s additional_data) = Some e →
  session_call (add_chat insert_rejects additional_data) s
  = (Raise e,
     {| this := {| fields := fields s;
                   chat_collection := Some docs;
                   expiration := expiration s;
                   index := (index s + 1)%Z |};
        session_logged := [] |}).
Proof.
  intros Hdocs Hreject. unfold session_call, add_chat.
  rewrite bind_run. unfold get at 1. simpl. rewrite Hdocs, Hreject.
  rewrite bind_run. unfold update, modify, raise. simpl. by rewrite Hdocs.
Qed.

End Insert_facts.

Lemma add_chat_uninitialised_witness :
  session_call (add_chat accepts_all {[ "role" := BStr "user" ]})
    (sample_session None)
  = (Ok tt,
     {| this := sample_session None;
        session_logged :=
          [(ERROR, [Txt "Chat collection is not initialized"])] |}).
Proof.
  apply (add_chat_uninitialised accepts_all (sample_session None)).
  reflexivity.
Defined.

Lemma add_chats_sequence_witness :
  ∃ s' new,
    session_call
      (add_chats accepts_all
         [{[ "role" := BStr "user" ]}; {[ "index" := BInt 99 ]}])
      (sample_session (Some []))
    = (Ok tt, {| this := s'; session_logged := [] |}) ∧
    index s' = 7%Z ∧
    (λ d : gmap string bson, d !! "index") <$> new
    = [Some (BInt 5); Some (BInt 6)].
Proof.
  destruct (add_chats_sequence accepts_all (sample_session (Some [])) []
              [{[ "role" := BStr "user" ]}; {[ "index" := BInt 99 ]}]
              eq_refl (λ _, eq_refl))
    as (s' & new & Hrun & _ & Hlen & Hindex & Hnew).
  exists s', new. split; [exact Hrun|]. split; [exact Hindex|].
  destruct (Hnew 0%nat _ eq_refl) as (d0 & H0 & Hi0 & _).
  destruct (Hnew 1%nat _ eq_refl) as (d1 & H1 & Hi1 & _).
  destruct new as [|x0 [|x1 [|? ?]]]; try discriminate Hlen.
  simpl in H0, H1. injection H0 as ->. injection H1 as ->.
  simpl. by rewrite Hi0, Hi1.
Defined.

Lemma add_chat_rejected_witness :
  (session_call (add_chat rejects_all {[ "role" := BStr "user" ]})
     (sample_session (Some []))).1 = Raise (ExternalError "pymongo") ∧
  index (this (session_call (add_chat rejects_all {[ "role" := BStr "user" ]})
                 (sample_session (Some []))).2) = 6%Z.
Proof.
  rewrite (add_chat_rejected rejects_all (sample_session (Some [])) []
             {[ "role" := BStr "user" ]} (ExternalError "pymongo")
             eq_refl eq_refl).
  by split.
Defined.

End chat_history_facts.

(** * Properties of the alert emitter *)

Module alerts_facts.
Import alerts.

Section Discord_facts.

Variables DISCORD_WEBHOOK_URL DISCORD_MEDIUM_PRIORITY_URL
  DISCORD_LOW_PRIORITY_URL : string.
Variable is_RequestException : exn → bool.
Variable post : string → gmap string string → outcome Z.

Abbreviation the_discord_log_error :=
  (discord_log_error DISCORD_WEBHOOK_URL DISCORD_MEDIUM_PRIORITY_URL
     DISCORD_LOW_PRIORITY_URL is_RequestException post).

Lemma discord_try_run content priority :
  ∃ url,
    ((priority = 1%Z → url = DISCORD_MEDIUM_PRIORITY_URL) ∧
     (priority = 2%Z → url = DISCORD_LOW_PRIORITY_URL) ∧
     (priority ≠ 1%Z → priority ≠ 2%Z → url = DISCORD_WEBHOOK_URL)) ∧
    discord_try DISCORD_WEBHOOK_URL DISCORD_MEDIUM_PRIORITY_URL
      DISCORD_LOW_PRIORITY_URL post content priority []
    = match post url {[ "content" := content ]} with
      | Ok status_code =>
          (Ok tt,
           Post url "application/json" {[ "content" := content ]}
           :: if (status_code =? 204)%Z then []
              else [LogError [Txt "Failed to log to Discord: ";
                              Num status_code]])
      | Raise e =>
          (Raise e, [Post url "application/json" {[ "content" := content ]}])
      end.
Proof.
  unfold discord_try.
  set (url := if (priority =? 2)%Z then _ else _).
  exists url. split.
  - subst url. repeat split.
    + intros ->. reflexivity.
    + intros ->. reflexivity.
    + intros H1 H2.
      destruct (Z.eqb_spec priority 2); [done|].
      by destruct (Z.eqb_spec priority 1).
  - rewrite bind_run. unfold modify at 1. rewrite bind_run.
    unfold lift at 1. simpl.
    destruct (post url _) as [status_code|e]; [|done].
    by destruct (status_code =? 204)%Z.
Qed.



End Discord_facts.



End alerts_facts.

(** * Further properties of the webhook *)

Module routing_facts.
Import api api_facts routing.

Lemma is_str_true (v : json) (s : string) : is_str v s = true → v = JStr s.
Proof.
  destruct v; simpl; try done.
  by intros ->%String.eqb_eq.
Qed.

Lemma case_true (event kind : string) (action : json) (name : string) :
  String.eqb event kind && is_str action name = true →
  event = kind ∧ action = JStr name.
Proof.
  intros [Hk Ha]%andb_true_iff.
  split; [by apply String.eqb_eq|by apply is_str_true].
Qed.

Lemma only_weaken {A} (P Q : effect → Prop) (m : M Trace A) :
  (∀ e, P e → Q e) → only P m → only Q m.
Proof.
  intros HPQ Hm tr. destruct (Hm tr) as (new & Htr & Hnew).
  exists new. split; [done|]. by eapply Forall_impl.
Qed.

(** ** When work is handed to a task *)

Section Gate.

Variables LABEL_NAME LABEL_COLOR LABEL_DESCRIPTION SWEEP_LOGIN : string.
Variable validators : Validators.
Variable world : World.
Variable str_lower : string → string.
Variable d : gmap string json.
Variable event : string.

Abbreviation the_gate := (gate SWEEP_LOGIN validators world str_lower d event).
Abbreviation the_webhook :=
  (webhook LABEL_NAME LABEL_COLOR LABEL_DESCRIPTION SWEEP_LOGIN validators
     world str_lower).

Lemma gate_on_issues_opened :
  only the_gate
    (on_issues_opened LABEL_NAME LABEL_COLOR LABEL_DESCRIPTION validators
       world str_lower d).
Proof. unfold on_issues_opened. repeat only_step; exact I. Qed.

Lemma gate_on_issues_labeled :
  event = "issues" →
  dict_get d "action" = JStr "labeled" →
  only the_gate (on_issues_labeled validators world str_lower d).
Proof.
  intros Hevent Haction. unfold on_issues_labeled. repeat only_step.
  simpl. left. do 2 (split; [done|]). eauto 10.
Qed.

Lemma gate_on_pr_comment rq :
  event = "issue_comment" →
  dict_get d "action" = JStr "created" →
  validate_IssueCommentRequest validators d = Some rq →
  (∀ i, issue (base rq) = Some i →
        has_sweep_label str_lower (labels i)
        && String.eqb (user_type (ic_user (comment rq))) "User" = false) →
  only the_gate (on_pr_comment SWEEP_LOGIN world rq).
Proof.
  intros Hevent Haction Hrq Helif. unfold on_pr_comment.
  repeat only_step; try exact I.
  match goal with
  | H : _ && _ && _ = true |- _ =>
      apply andb_true_iff in H as [[Hpr Hbot]%andb_true_iff Huser]
  end.
  apply String.eqb_eq in Hbot.
  specialize (Helif _ ltac:(eassumption)). rewrite Huser in Helif.
  rewrite andb_true_r in Helif. apply String.eqb_eq in Huser.
  simpl. left. do 2 (split; [done|]). eauto 15.
Qed.

Lemma gate_on_issue_comment_created :
  event = "issue_comment" →
  dict_get d "action" = JStr "created" →
  only the_gate (on_issue_comment_created SWEEP_LOGIN validators world str_lower d).
Proof.
  intros Hevent Haction. unfold on_issue_comment_created. only_step.
  destruct (issue (base rq)) as [i|] eqn:Hi.
  - destruct (_ && _) eqn:Hif.
    + only_step. apply andb_true_iff in Hif as [Hlabel Huser].
      apply String.eqb_eq in Huser.
      simpl. right. do 2 (split; [done|]). eauto 15.
    + apply gate_on_pr_comment; try done.
      intros i' Hi'. by simplify_eq.
  - apply gate_on_pr_comment; try done.
    intros i' Hi'. by simplify_eq.
Qed.

Lemma gate_on_review_comment_created :
  event = "pull_request_review_comment" →
  dict_get d "action" = JStr "created" →
  only the_gate (on_review_comment_created validators world str_lower d).
Proof.
  intros Hevent Haction. unfold on_review_comment_created.
  repeat only_step.
  simpl. right. left. do 2 (split; [done|]). eauto 10.
Qed.

Lemma gate_on_check_run_completed :
  event = "check_run" →
  dict_get d "action" = JStr "completed" →
  only the_gate (on_check_run_completed validators world d).
Proof.
  intros Hevent Haction. unfold on_check_run_completed.
  repeat only_step; try exact I.
  simpl. right. right. do 2 (split; [done|]). eauto 10.
Qed.

Lemma gate_index_added_repositories n repos :
  only the_gate (index_added_repositories world n repos).
Proof.
  induction repos as [|repo repos IH]; simpl; [apply only_ret|].
  repeat only_step; (exact I || exact IH).
Qed.

Lemma gate_index_repositories n repos :
  only the_gate (index_repositories world n repos).
Proof.
  induction repos as [|repo repos IH]; simpl; [apply only_ret|].
  repeat only_step; (exact I || exact IH).
Qed.

Lemma gate_spawn_update_index : only the_gate (spawn_update_index world d).
Proof. unfold spawn_update_index. repeat only_step. exact I. Qed.

Lemma gate_dispatch :
  only the_gate
    (dispatch LABEL_NAME LABEL_COLOR LABEL_DESCRIPTION SWEEP_LOGIN validators
       world str_lower event d).
Proof.
  unfold dispatch. cbv beta zeta.
  repeat match goal with
         | |- only _ (if ?b then _ else _) =>
             let H := fresh "Hcase" in
             destruct b eqn:H; [try apply case_true in H as [? ?]|clear H]
         end.
  all: (apply only_bind; [|intros ?; apply only_ret]) || idtac.
  - apply gate_on_issues_opened.
  - by apply gate_on_issues_labeled.
  - by apply gate_on_issue_comment_created.
  - by apply gate_on_review_comment_created.
  - apply only_ret.
  - by apply gate_on_check_run_completed.
  - unfold on_repositories_added. repeat only_step; try exact I.
    apply gate_index_added_repositories.
  - unfold on_installation_created. only_step.
    apply gate_index_repositories.
  - unfold on_pull_request_closed. repeat only_step; try exact I.
    all: apply gate_spawn_update_index.
  - unfold on_push. repeat only_step; try exact I.
    all: apply gate_spawn_update_index.
  - apply only_ret.
  - apply only_emit. exact I.
Qed.

Lemma gate_webhook (raw_request : Request) :
  json_body raw_request = Some (JObj d) →
  headers_get "X-GitHub-Event" (headers raw_request) = Some event →
  Forall the_gate (serve (the_webhook raw_request)).2.
Proof.
  intros Hbody Hevent.
  assert (only the_gate (the_webhook raw_request)) as Honly.
  { unfold webhook. apply only_bind; [|intros [?|]; apply only_ret].
    apply only_try_catch.
    - unfold webhook_try. rewrite Hbody, Hevent.
      apply only_pure_bind, only_pure_bind.
      apply only_bind; [by apply only_emit|intros _].
      apply gate_dispatch.
    - intros e. destruct e; simpl; repeat only_step; exact I. }
  destruct (Honly []) as (new & Hnew & HP). unfold serve.
  by rewrite Hnew.
Qed.

(** A resolve-ticket task is started only for an "issues" event with action
    "labeled" or an "issue_comment" event with action "created", only
    when the issue of the validated payload carries the marker label
    (compared without case) and, for a comment, only when the commenter's
    account type is "User"; it is started for that issue, with the id of
    the comment on the comment path and without one on the label path. *)
Theorem ticket_dispatch_gate (raw_request : Request) (a : TicketArgs) :
  json_body raw_request = Some (JObj d) →
  headers_get "X-GitHub-Event" (headers raw_request) = Some event →
  handle_ticket_spawn a ∈ (serve (the_webhook raw_request)).2 →
  gate SWEEP_LOGIN validators world str_lower d event (handle_ticket_spawn a).
Proof.
  intros Hbody Hevent Hin.
  pose proof (gate_webhook raw_request Hbody Hevent) as Hall.
  rewrite Forall_forall in Hall. by apply Hall.
Qed.

(** A handle-comment task is started only in three cases: a comment by a
    "User" account on an issue that is a pull request of the bot and does
    not carry the marker label; a review comment on a pull request whose
    head branch contains "sweep/" (compared without case), forwarded with
    the path and the original line of the comment; a completed check run
    with at least one pull request, forwarded with the logs the check suite
    returned and the number of the first pull request. *)
Theorem comment_dispatch_gate (raw_request : Request) (a : CommentArgs) :
  json_body raw_request = Some (JObj d) →
  headers_get "X-GitHub-Event" (headers raw_request) = Some event →
  handle_comment_spawn a ∈ (serve (the_webhook raw_request)).2 →
  gate SWEEP_LOGIN validators world str_lower d event (handle_comment_spawn a).
Proof.
  intros Hbody Hevent Hin.
  pose proof (gate_webhook raw_request Hbody Hevent) as Hall.
  rewrite Forall_forall in Hall. by apply Hall.
Qed.

End Gate.

(** ** What each case does *)

Section Runs.

Variables LABEL_NAME LABEL_COLOR LABEL_DESCRIPTION SWEEP_LOGIN : string.
Variable validators : Validators.
Variable world : World.
Variable str_lower : string → string.
Variable d : gmap string json.

Abbreviation this_webhook :=
  (webhook LABEL_NAME LABEL_COLOR LABEL_DESCRIPTION SWEEP_LOGIN validators
     world str_lower).
Abbreviation this_dispatch :=
  (dispatch LABEL_NAME LABEL_COLOR LABEL_DESCRIPTION SWEEP_LOGIN validators
     world str_lower).

Lemma ext_ok e tr :
  fails world e = None → ext world e tr = (Ok tt, tr ++ [e]).
Proof.
  intros Hok. unfold ext. rewrite bind_run. unfold emit, modify.
  by rewrite Hok.
Qed.

Lemma validated_ok {A} (parse : gmap string json → option A) rq tr :
  parse d = Some rq → validated parse d tr = (Ok rq, tr).
Proof. intros Hrq. unfold validated. by rewrite Hrq. Qed.

Lemma validated_rejects {A} (parse : gmap string json → option A) tr :
  parse d = None →
  validated parse d tr = (Raise ValidationError : outcome A, tr).
Proof. intros Hrq. unfold validated. by rewrite Hrq. Qed.

(** The request boundary in terms of the [match] statement. *)
Lemma webhook_run (raw_request : Request) event :
  json_body raw_request = Some (JObj d) →
  headers_get "X-GitHub-Event" (headers raw_request) = Some event →
  serve (this_webhook raw_request)
  = match this_dispatch event d [received d] with
    | (Ok (Some response), tr) => (Ok response, tr)
    | (Ok None, tr) => (Ok success, tr)
    | (Raise e, tr) => webhook_except e tr
    end.
Proof.
  intros Hbody Hevent. unfold serve, webhook, webhook_try.
  rewrite bind_run, try_catch_run, bind_run, Hbody.
  unfold lift at 1. rewrite bind_run. unfold mret at 1, M_ret at 1.
  rewrite bind_run. unfold emit at 1, modify at 1. rewrite Hevent.
  change ([] ++ [Log INFO [Lit "Received request: ";
                           Names (map_to_list d).*1]])
    with [received d].
  destruct (this_dispatch event d [received d]) as [[[r|]|e] tr]; try done.
  by destruct e.
Qed.

(** A case whose handler is [h]. *)
Lemma handled_run {A} (h : M Trace A) tr :
  (h ≫= λ _, mret None : M Trace (option json)) tr
  = match h tr with
    | (Ok _, tr') => (Ok None, tr')
    | (Raise e, tr') => (Raise e, tr')
    end.
Proof. rewrite bind_run. by destruct (h tr) as [[?|?] ?]. Qed.

(** A request whose payload the model of its case rejects is answered 422
    "Failed to parse request", and nothing has happened but the two log
    records: no service was called and no task started. *)
Theorem rejected_payload_has_no_effect (raw_request : Request) event :
  json_body raw_request = Some (JObj d) →
  headers_get "X-GitHub-Event" (headers raw_request) = Some event →
  rejected validators d event (dict_get d "action") →
  serve (this_webhook raw_request)
  = (Raise (HTTPException 422 "Failed to parse request"),
     [received d;
      Log WARNING [Lit "Failed to parse request: "; Lit "ValidationError"]]).
Proof.
  intros Hbody Hevent Hrejected.
  rewrite (webhook_run raw_request event) by done.
  unfold dispatch. cbv beta zeta.
  remember (dict_get d "action") as action eqn:Haction.
  destruct Hrejected as [H|H|H|H|H|H|H|H]; simpl; rewrite handled_run.
  - unfold on_issues_opened. by rewrite bind_run, validated_rejects.
  - unfold on_issues_labeled. by rewrite bind_run, validated_rejects.
  - unfold on_issue_comment_created. by rewrite bind_run, validated_rejects.
  - unfold on_review_comment_created. by rewrite bind_run, validated_rejects.
  - unfold on_check_run_completed. by rewrite bind_run, validated_rejects.
  - unfold on_repositories_added. by rewrite bind_run, validated_rejects.
  - unfold on_installation_created. by rewrite bind_run, validated_rejects.
  - unfold on_pull_request_closed. by rewrite bind_run, validated_rejects.
Qed.

(** A review comment is forwarded to the handle-comment task exactly when
    the head branch of the pull request contains "sweep/", compared without
    case; the task then receives the path and the original line of the
    comment unchanged, with the body, author, installation and pull request
    number of the payload. Otherwise nothing is done. *)
Theorem review_comment_round_trip (raw_request : Request) rq :
  json_body raw_request = Some (JObj d) →
  headers_get "X-GitHub-Event" (headers raw_request)
    = Some "pull_request_review_comment" →
  d !! "action" = Some (JStr "created") →
  validate_CommentCreatedRequest validators d = Some rq →
  let spawn :=
    handle_comment_spawn
      {| repo_full_name := full_name (cc_repository rq);
         repo_description := description (cc_repository rq);
         comment_text := rc_body (cc_comment rq);
         pr_path := Some (rc_path (cc_comment rq));
         pr_line_position := Some (rc_original_line (cc_comment rq));
         username := login (rc_user (cc_comment rq));
         installation_id := id (cc_installation rq);
         c_pr_number := pr_number (cc_pull_request rq) |} in
  (contains "sweep/" (str_lower (ref (head (cc_pull_request rq)))) = true →
   fails world spawn = None →
   serve (this_webhook raw_request) = (Ok success, [received d; spawn])) ∧
  (contains "sweep/" (str_lower (ref (head (cc_pull_request rq)))) = false →
   serve (this_webhook raw_request) = (Ok success, [received d])).
Proof.
  intros Hbody Hevent Haction Hrq spawn.
  rewrite (webhook_run raw_request _ Hbody Hevent).
  unfold dispatch, dict_get. rewrite Haction. simpl. rewrite handled_run.
  unfold on_review_comment_created.
  rewrite bind_run, (validated_ok _ rq) by done.
  split; intros ->; [intros Hok|]; [|done].
  by rewrite ext_ok.
Qed.

(** An opened issue whose title, in lower case, starts with "sweep" or
    contains "sweep:" gets the marker label: when the services answer, the
    label is created on the repository only if the repository does not have
    it, it is never created twice, and it is then attached to the issue. An
    opened issue with another title causes no call at all. *)
Theorem opened_issue_is_labelled (raw_request : Request) rq i :
  json_body raw_request = Some (JObj d) →
  headers_get "X-GitHub-Event" (headers raw_request) = Some "issues" →
  d !! "action" = Some (JStr "opened") →
  validate_IssueRequest validators d = Some rq →
  issue rq = Some i →
  (∀ e, fails world e = None) →
  let repo := full_name (repository rq) in
  let triggered :=
    startswith "sweep" (str_lower (title i))
    || contains "sweep:" (str_lower (title i)) in
  (triggered = true →
   serve (this_webhook raw_request)
   = (Ok success,
      [received d; get_github_client (id (installation rq)); get_repo repo;
       get_labels repo]
      ++ (if existsb (String.eqb LABEL_NAME) (label_names_of world repo)
          then []
          else [create_label repo LABEL_NAME LABEL_COLOR LABEL_DESCRIPTION])
      ++ [get_issue repo (number i);
          add_to_labels repo (number i) LABEL_NAME])) ∧
  (triggered = false →
   serve (this_webhook raw_request) = (Ok success, [received d])).
Proof.
  intros Hbody Hevent Haction Hrq Hi Hok repo triggered.
  assert (this_dispatch "issues" d [received d]
          = match on_issues_opened LABEL_NAME LABEL_COLOR LABEL_DESCRIPTION
                    validators world str_lower d [received d] with
            | (Ok _, tr') => (Ok None, tr')
            | (Raise e, tr') => (Raise e, tr')
            end) as Hdispatch.
  { unfold dispatch, dict_get. rewrite Haction. simpl. apply handled_run. }
  rewrite (webhook_run raw_request _ Hbody Hevent), Hdispatch.
  unfold on_issues_opened.
  rewrite bind_run, (validated_ok _ rq) by done.
  rewrite bind_run, Hi.
  change (attr_of (Some i) [received d]) with (Ok i, [received d]).
  subst repo triggered. cbv zeta.
  split; intros ->; [|done].
  rewrite bind_run, ext_ok by done.
  rewrite bind_run, ext_ok by done.
  rewrite bind_run, ext_ok by done.
  rewrite bind_run.
  destruct (existsb _ _); simpl.
  - rewrite bind_run, ext_ok by done. by rewrite ext_ok.
  - rewrite ext_ok by done.
    rewrite bind_run, ext_ok by done. by rewrite ext_ok.
Qed.

(** A completed check run first runs the check suite and waits for its
    logs, then starts the handle-comment task with these logs as the
    comment, for the first pull request of the run. When the run lists no
    pull request, the check suite has run all the same, no task is started
    and [IndexError] reaches the request boundary. *)
Theorem check_run_completed_effects (raw_request : Request) rq :
  json_body raw_request = Some (JObj d) →
  headers_get "X-GitHub-Event" (headers raw_request) = Some "check_run" →
  d !! "action" = Some (JStr "completed") →
  validate_CheckRunCompleted validators d = Some rq →
  fails world (handle_check_suite_call rq) = None →
  let logs := check_suite_logs world rq in
  let ran := [received d; handle_check_suite_call rq;
              Log INFO [Lit "Logs: "; Lit logs]] in
  (∀ pr rest,
     pull_requests (check_run rq) = pr :: rest →
     let spawn :=
       handle_comment_spawn
         {| repo_full_name := full_name (cr_repository rq);
            repo_description := description (cr_repository rq);
            comment_text := logs;
            pr_path := None;
            pr_line_position := None;
            username := login (sender rq);
            installation_id := id (cr_installation rq);
            c_pr_number := pr_number pr |} in
     fails world spawn = None →
     serve (this_webhook raw_request) = (Ok success, ran ++ [spawn])) ∧
  (pull_requests (check_run rq) = [] →
   serve (this_webhook raw_request) = (Raise IndexError, ran)).
Proof.
  intros Hbody Hevent Haction Hrq Hcall logs ran.
  rewrite (webhook_run raw_request _ Hbody Hevent).
  unfold dispatch, dict_get. rewrite Haction. simpl. rewrite handled_run.
  unfold on_check_run_completed.
  rewrite bind_run, (validated_ok _ rq) by done.
  rewrite bind_run, ext_ok by done.
  rewrite bind_run. unfold emit at 1, modify at 1. fold logs.
  split.
  - intros pr rest Hprs. cbv zeta. intros Hspawn.
    rewrite Hprs. by rewrite ext_ok.
  - by intros ->.
Qed.

Lemma unpack2_error (parts : list string) :
  (∃ x y, parts = [x; y]) ∨ unpack2 parts = Raise ValueError.
Proof.
  destruct parts as [|x [|y [|z parts]]]; eauto.
Qed.

Lemma index_added_repositories_run n repos :
  (∀ e, fails world e = None) →
  Forall well_named repos →
  ∀ tr, index_added_repositories world n repos tr
        = (Ok tt, tr ++ flat_map (installed_effects n) repos).
Proof.
  intros Hok. induction 1 as [|repo repos (org & name & Hsplit) _ IH];
    intros tr; simpl.
  - by rewrite app_nil_r.
  - unfold installed_effects at 1. rewrite bind_run, Hsplit. simpl.
    rewrite bind_run, ext_ok by done.
    rewrite bind_run, ext_ok by done.
    rewrite IH, <- !app_assoc. reflexivity.
Qed.

Lemma index_added_repositories_stops n before bad rest :
  (∀ e, fails world e = None) →
  Forall well_named before →
  ¬ well_named bad →
  ∀ tr, index_added_repositories world n (before ++ bad :: rest) tr
        = (Raise ValueError, tr ++ flat_map (installed_effects n) before).
Proof.
  intros Hok Hbefore Hbad.
  induction Hbefore as [|repo repos (org & name & Hsplit) _ IH];
    intros tr; simpl.
  - rewrite app_nil_r, bind_run.
    destruct (unpack2_error (split "/" (full_name bad)))
      as [(x & y & Hxy)| ->]; [|done].
    destruct Hbad. by exists x, y.
  - unfold installed_effects at 1. rewrite bind_run, Hsplit. simpl.
    rewrite bind_run, ext_ok by done.
    rewrite bind_run, ext_ok by done.
    rewrite IH, <- !app_assoc. reflexivity.
Qed.

(** When repositories are added to an installation and the services
    answer, the "started" analytics record is captured first; then, for
    each repository in the order of the payload, its analytics record is
    captured and it is indexed. A repository whose full name is not of the
    form owner/name stops the loop with [ValueError]: the repositories
    before it have been indexed, it and those after it have not. *)
Theorem repositories_added_effects (raw_request : Request) rq :
  json_body raw_request = Some (JObj d) →
  headers_get "X-GitHub-Event" (headers raw_request)
    = Some "installation_repositories" →
  d !! "action" = Some (JStr "added") →
  validate_ReposAddedRequest validators d = Some rq →
  (∀ e, fails world e = None) →
  let n := id (ra_installation rq) in
  let started :=
    posthog_capture "installation_repositories" "started"
      (<["repositories" :=
           JArr ((λ repo, JStr (full_name repo)) <$> repositories_added rq)]>
         {[ "installation_id" := JNum n ]}) in
  (Forall well_named (repositories_added rq) →
   serve (this_webhook raw_request)
   = (Ok success,
      received d :: started
      :: flat_map (installed_effects n) (repositories_added rq))) ∧
  (∀ before bad rest,
     repositories_added rq = before ++ bad :: rest →
     Forall well_named before →
     ¬ well_named bad →
     serve (this_webhook raw_request)
     = (Raise ValueError,
        received d :: started :: flat_map (installed_effects n) before)).
Proof.
  intros Hbody Hevent Haction Hrq Hok n started.
  assert (this_dispatch "installation_repositories" d [received d]
          = match on_repositories_added validators world d [received d] with
            | (Ok _, tr') => (Ok None, tr')
            | (Raise e, tr') => (Raise e, tr')
            end) as Hdispatch.
  { unfold dispatch, dict_get. rewrite Haction. simpl. apply handled_run. }
  rewrite (webhook_run raw_request _ Hbody Hevent), Hdispatch.
  unfold on_repositories_added.
  rewrite bind_run, (validated_ok _ rq) by done.
  rewrite bind_run, ext_ok by done.
  fold n. fold started. split.
  - intros Hnamed. by rewrite index_added_repositories_run.
  - intros before bad rest -> Hbefore Hbad.
    by rewrite index_added_repositories_stops.
Qed.

Lemma index_repositories_run n repos :
  (∀ e, fails world e = None) →
  ∀ tr, index_repositories world n repos tr
        = (Ok tt,
           tr ++ ((λ repo, index_full_repository (full_name repo) n)
                  <$> repos)).
Proof.
  intros Hok. induction repos as [|repo repos IH]; intros tr; simpl.
  - by rewrite app_nil_r.
  - rewrite bind_run, ext_ok by done.
    rewrite IH, <- app_assoc. reflexivity.
Qed.

(** When an installation is created and the services answer, every
    repository of the payload is indexed, once and in the order of the
    payload, for the installation of the payload, and nothing else is
    done: no analytics record is captured and no name is split. *)
Theorem installation_created_effects (raw_request : Request) rq :
  json_body raw_request = Some (JObj d) →
  headers_get "X-GitHub-Event" (headers raw_request) = Some "installation" →
  d !! "action" = Some (JStr "created") →
  validate_InstallationCreatedRequest validators d = Some rq →
  (∀ e, fails world e = None) →
  serve (this_webhook raw_request)
  = (Ok success,
     received d
     :: ((λ repo,
            index_full_repository (full_name repo)
              (id (created_installation rq)))
         <$> repositories rq)).
Proof.
  intros Hbody Hevent Haction Hrq Hok.
  assert (this_dispatch "installation" d [received d]
          = match on_installation_created validators world d [received d] with
            | (Ok _, tr') => (Ok None, tr')
            | (Raise e, tr') => (Raise e, tr')
            end) as Hdispatch.
  { unfold dispatch, dict_get. rewrite Haction. simpl. apply handled_run. }
  rewrite (webhook_run raw_request _ Hbody Hevent), Hdispatch.
  unfold on_installation_created.
  rewrite bind_run, (validated_ok _ rq) by done.
  by rewrite index_repositories_run.
Qed.

(** A push (event "push", no action) refreshes the index with the
    repository name and installation id of the raw payload, whatever else
    the payload holds: its "base" entry is never read. A push payload
    without a "repository" entry ends in [KeyError] with nothing done. *)
Theorem push_refreshes_index (raw_request : Request) :
  json_body raw_request = Some (JObj d) →
  headers_get "X-GitHub-Event" (headers raw_request) = Some "push" →
  is_None (dict_get d "action") = true →
  (∀ repository name installation installation_id,
     d !! "repository" = Some repository →
     subscript repository "full_name" = Ok name →
     d !! "installation" = Some installation →
     subscript installation "id" = Ok installation_id →
     fails world (update_index_spawn name installation_id) = None →
     serve (this_webhook raw_request)
     = (Ok success, [received d; update_index_spawn name installation_id])) ∧
  (d !! "repository" = None →
   serve (this_webhook raw_request)
   = (Raise (KeyError "repository"), [received d])).
Proof.
  intros Hbody Hevent Haction.
  assert (this_dispatch "push" d [received d]
          = match spawn_update_index world d [received d] with
            | (Ok _, tr') => (Ok None, tr')
            | (Raise e, tr') => (Raise e, tr')
            end) as Hdispatch.
  { unfold dispatch. rewrite Haction. simpl. rewrite handled_run.
    reflexivity. }
  rewrite (webhook_run raw_request _ Hbody Hevent), Hdispatch.
  unfold spawn_update_index. rewrite bind_run. unfold lift at 1.
  cbn [subscript]. split.
  - intros repository name installation installation_id Hrepo Hname Hinst
      Hid Hok.
    rewrite Hrepo. rewrite bind_run. unfold lift at 1. rewrite Hname.
    rewrite bind_run. unfold lift at 1. cbn [subscript]. rewrite Hinst.
    rewrite bind_run. unfold lift at 1. rewrite Hid.
    by rewrite ext_ok.
  - by intros ->.
Qed.

(** An event of a kind the [match] has no case for is answered
    [{"success": true}] after a log record that names it: no service is
    called and no task started. A submitted pull request review is
    answered the same way without even that record. *)
Theorem unhandled_events_are_ignored (raw_request : Request) event :
  json_body raw_request = Some (JObj d) →
  headers_get "X-GitHub-Event" (headers raw_request) = Some event →
  (event ∉ known_kinds →
   serve (this_webhook raw_request)
   = (Ok success,
      [received d;
       Log INFO [Lit "Unhandled event: "; Lit event; Lit " ";
                 Val (dict_get d "action")]])) ∧
  (event = "pull_request_review" →
   dict_get d "action" = JStr "submitted" →
   serve (this_webhook raw_request) = (Ok success, [received d])).
Proof.
  intros Hbody Hevent.
  rewrite (webhook_run raw_request _ Hbody Hevent).
  split.
  - intros Hkind. unfold known_kinds in Hkind.
    repeat (apply not_elem_of_cons in Hkind as [?%String.eqb_neq Hkind]).
    unfold dispatch. cbv beta zeta.
    repeat match goal with
           | H : String.eqb event _ = false |- _ => rewrite H; clear H
           end.
    reflexivity.
  - intros -> Haction. unfold dispatch. by rewrite Haction.
Qed.

End Runs.

(** ** The statements on sample requests *)

Lemma ticket_dispatch_gate_witness :
  ∃ a, gate "sweep-ai[bot]" sample_validators sample_world ascii_lower
         issue_labeled_payload "issues" (handle_ticket_spawn a) ∧
       t_number a = 3%Z.
Proof.
  eexists. split.
  - apply (ticket_dispatch_gate "sweep" "0E8A16" "Sweep your software chores"
             "sweep-ai[bot]" sample_validators sample_world ascii_lower
             issue_labeled_payload "issues" sample_issue_labeled);
      [reflexivity..|].
    vm_compute. apply list_elem_of_further, list_elem_of_here.
  - reflexivity.
Defined.

Lemma comment_dispatch_gate_witness :
  ∃ a, gate "sweep-ai[bot]" sample_validators sample_world ascii_lower
         review_comment_payload "pull_request_review_comment"
         (handle_comment_spawn a) ∧
       pr_path a = Some "src/a.py".
Proof.
  eexists. split.
  - apply (comment_dispatch_gate "sweep" "0E8A16"
             "Sweep your software chores" "sweep-ai[bot]" sample_validators
             sample_world ascii_lower review_comment_payload
             "pull_request_review_comment" sample_review_comment);
      [reflexivity..|].
    vm_compute. apply list_elem_of_further, list_elem_of_here.
  - reflexivity.
Defined.

Lemma rejected_payload_has_no_effect_witness :
  serve (sample_webhook sample_malformed)
  = (Raise (HTTPException 422 "Failed to parse request"),
     [received (action_payload "labeled");
      Log WARNING [Lit "Failed to parse request: "; Lit "ValidationError"]]).
Proof.
  apply (rejected_payload_has_no_effect "sweep" "0E8A16"
           "Sweep your software chores" "sweep-ai[bot]" sample_validators
           sample_world ascii_lower (action_payload "labeled") sample_malformed "issues");
    [reflexivity..|].
  apply rejected_issues_labeled. reflexivity.
Defined.

Lemma review_comment_round_trip_witness :
  ∃ a, serve (sample_webhook sample_review_comment)
       = (Ok success,
          [received review_comment_payload; handle_comment_spawn a]) ∧
       pr_path a = Some "src/a.py" ∧ pr_line_position a = Some 42%Z.
Proof.
  eexists. split.
  - eapply (proj1 (review_comment_round_trip "sweep" "0E8A16"
                     "Sweep your software chores" "sweep-ai[bot]"
                     sample_validators sample_world ascii_lower review_comment_payload
                     sample_review_comment _ eq_refl eq_refl eq_refl
                     eq_refl)); reflexivity.
  - split; reflexivity.
Defined.

Lemma opened_issue_is_labelled_witness :
  serve (fixed_webhook
           (fixed_validators (Some (sample_issue false None "octocat")) "User"
              [] [])
           (answering ["bug"] EmptyString)
           (post "issues" (action_payload "opened")))
  = (Ok success,
     [received (action_payload "opened"); get_github_client 17;
      get_repo "acme/widgets"; get_labels "acme/widgets";
      create_label "acme/widgets" "sweep" "0E8A16"
        "Sweep your software chores";
      get_issue "acme/widgets" 3; add_to_labels "acme/widgets" 3 "sweep"]).
Proof.
  eapply (proj1 (opened_issue_is_labelled "sweep" "0E8A16"
                   "Sweep your software chores" "sweep-ai[bot]"
                   (fixed_validators (Some (sample_issue false None "octocat"))
                      "User" [] [])
                   (answering ["bug"] EmptyString) ascii_lower (action_payload "opened")
                   (post "issues" (action_payload "opened")) _ _
                   eq_refl eq_refl eq_refl eq_refl eq_refl (λ _, eq_refl))).
  reflexivity.
Defined.

Lemma check_run_completed_effects_witness :
  (serve (fixed_webhook
            (fixed_validators None "User" []
               [{| head := {| ref := "sweep/fix-typo" |}; pr_number := 7 |}])
            (answering [] "lint failed")
            (post "check_run" (action_payload "completed")))).1
  = Ok success ∧
  (serve (fixed_webhook (fixed_validators None "User" [] [])
            (answering [] "lint failed")
            (post "check_run" (action_payload "completed")))).1
  = Raise IndexError.
Proof.
  unfold fixed_webhook. split.
  - erewrite (proj1 (check_run_completed_effects "sweep" "0E8A16"
                       "Sweep your software chores" "sweep-ai[bot]"
                       (fixed_validators None "User" []
                          [{| head := {| ref := "sweep/fix-typo" |};
                              pr_number := 7 |}])
                       (answering [] "lint failed") ascii_lower
                       (action_payload "completed")
                       (post "check_run" (action_payload "completed")) _
                       eq_refl eq_refl eq_refl eq_refl eq_refl));
      reflexivity.
  - erewrite (proj2 (check_run_completed_effects "sweep" "0E8A16"
                       "Sweep your software chores" "sweep-ai[bot]"
                       (fixed_validators None "User" [] [])
                       (answering [] "lint failed") ascii_lower
                       (action_payload "completed")
                       (post "check_run" (action_payload "completed")) _
                       eq_refl eq_refl eq_refl eq_refl eq_refl));
      reflexivity.
Defined.

Lemma repositories_added_effects_witness :
  (serve (fixed_webhook
            (fixed_validators None "User"
               [sample_repo "acme/widgets"; sample_repo "acme/gadgets"] [])
            (answering [] EmptyString)
            (post "installation_repositories" (action_payload "added")))).1
  = Ok success ∧
  (serve (fixed_webhook
            (fixed_validators None "User"
               [sample_repo "acme/widgets"; sample_repo "gadgets"] [])
            (answering [] EmptyString)
            (post "installation_repositories" (action_payload "added")))).1
  = Raise ValueError.
Proof.
  unfold fixed_webhook. split.
  - erewrite (proj1 (repositories_added_effects "sweep" "0E8A16"
                       "Sweep your software chores" "sweep-ai[bot]"
                       (fixed_validators None "User"
                          [sample_repo "acme/widgets";
                           sample_repo "acme/gadgets"] [])
                       (answering [] EmptyString) ascii_lower (action_payload "added")
                       (post "installation_repositories"
                          (action_payload "added")) _
                       eq_refl eq_refl eq_refl eq_refl (λ _, eq_refl)));
      [reflexivity|].
    repeat constructor; by eexists _, _.
  - erewrite (proj2 (repositories_added_effects "sweep" "0E8A16"
                       "Sweep your software chores" "sweep-ai[bot]"
                       (fixed_validators None "User"
                          [sample_repo "acme/widgets"; sample_repo "gadgets"]
                          [])
                       (answering [] EmptyString) ascii_lower (action_payload "added")
                       (post "installation_repositories"
                          (action_payload "added")) _
                       eq_refl eq_refl eq_refl eq_refl (λ _, eq_refl))
                [sample_repo "acme/widgets"] (sample_repo "gadgets") []);
      [reflexivity|reflexivity| |].
    + repeat constructor; by eexists _, _.
    + intros (x & y & Hxy). discriminate Hxy.
Defined.

Lemma installation_created_effects_witness :
  serve (fixed_webhook
           (fixed_validators None "User"
              [sample_repo "acme/widgets"; sample_repo "acme/gadgets"] [])
           (answering [] EmptyString)
           (post "installation" (action_payload "created")))
  = (Ok success,
     [received (action_payload "created");
      index_full_repository "acme/widgets" 17;
      index_full_repository "acme/gadgets" 17]).
Proof.
  eapply (installation_created_effects "sweep" "0E8A16"
            "Sweep your software chores" "sweep-ai[bot]"
            (fixed_validators None "User"
               [sample_repo "acme/widgets"; sample_repo "acme/gadgets"] [])
            (answering [] EmptyString) ascii_lower (action_payload "created")
            (post "installation" (action_payload "created")) _
            eq_refl eq_refl eq_refl eq_refl (λ _, eq_refl)).
Defined.

Lemma push_refreshes_index_witness :
  serve (sample_webhook (post "push" push_payload))
  = (Ok success,
     [received push_payload;
      update_index_spawn (JStr "acme/widgets") (JNum 17)]) ∧
  (serve (sample_webhook (post "push" empty_payload))).1 = Raise (KeyError "repository").
Proof.
  split.
  - eapply (proj1 (push_refreshes_index "sweep" "0E8A16"
                     "Sweep your software chores" "sweep-ai[bot]"
                     sample_validators sample_world ascii_lower push_payload
                     (post "push" push_payload) eq_refl eq_refl eq_refl));
      reflexivity.
  - unfold sample_webhook.
    erewrite (proj2 (push_refreshes_index "sweep" "0E8A16"
                       "Sweep your software chores" "sweep-ai[bot]"
                       sample_validators sample_world ascii_lower empty_payload (post "push" empty_payload)
                       eq_refl eq_refl eq_refl)); reflexivity.
Defined.

Lemma unhandled_events_are_ignored_witness :
  serve (sample_webhook (post "fork" empty_payload))
  = (Ok success,
     [received empty_payload;
      Log INFO [Lit "Unhandled event: "; Lit "fork"; Lit " "; Val JNull]]).
Proof.
  eapply (proj1 (unhandled_events_are_ignored "sweep" "0E8A16"
                   "Sweep your software chores" "sweep-ai[bot]"
                   sample_validators sample_world ascii_lower empty_payload (post "fork" empty_payload) "fork"
                   eq_refl eq_refl)).
  unfold known_kinds. intros Hin.
  repeat (apply elem_of_cons in Hin as [Hin|Hin]; [discriminate Hin|]).
  by apply elem_of_nil in Hin.
Defined.

End routing_facts.
